(** * concat_proj: selecting, listing and concatenating the files of a project

    A shallow embedding of [concat_proj.py] and the properties of its
    specification.

    - Python [str] values are [string]s, one [ascii] per character; the
      text of a file is kept as its UTF-8 bytes, which is what decoding and
      writing back with the same codec preserve.
    - The POSIX flavour of [os.path] and [pathlib] is the one modelled:
      [os.sep] is ["/"] and [os.path.normcase] is the identity.
    - The library routines the script calls ([str] methods,
      [pathlib.Path], [fnmatch.fnmatch] with the sets and ranges of
      [fnmatch.translate], [os.path]) are written out as executable
      functions.
    - The file system is what the script sees of it: the result of
      [os.walk] for a directory, the bytes behind a path, the current
      directory.  Files are read as they are when the run starts.
    - Writing to the output file and raising are an explicit state and
      error monad: what is written before an exception stays written. *)

From Stdlib Require Import List ListSet Ascii String Bool Arith ZArith Lia.
From Stdlib Require Import Permutation Sorted.
Import ListNotations.
Local Open Scope string_scope.
Local Open Scope list_scope.

Infix "+++" := String.append (at level 60, right associativity).

(** ** Python [str] methods used by the script *)

Module Str.

(** [s.startswith(prefix)] *)
Definition startswith (s prefix : string) : bool := String.prefix prefix s.

(** [s.endswith(suffix)] *)
Fixpoint endswith (s suffix : string) : bool :=
  (s =? suffix)%string ||
  match s with
  | EmptyString => false
  | String _ s' => endswith s' suffix
  end.

(** [sub in s] *)
Fixpoint contains (sub s : string) : bool :=
  String.prefix sub s ||
  match s with
  | EmptyString => false
  | String _ s' => contains sub s'
  end.

Definition lower_char (c : ascii) : ascii :=
  let n := nat_of_ascii c in
  if ((65 <=? n) && (n <=? 90))%nat then ascii_of_nat (n + 32) else c.

(** [s.lower()] *)
Fixpoint lower (s : string) : string :=
  match s with
  | EmptyString => EmptyString
  | String c s' => String (lower_char c) (lower s')
  end.

(** [s.split(sep)] for a one-character separator: never the empty list. *)
Fixpoint split (sep : ascii) (s : string) : list string :=
  match s with
  | EmptyString => [EmptyString]
  | String c s' =>
      if Ascii.eqb c sep then EmptyString :: split sep s'
      else match split sep s' with
           | [] => [String c EmptyString]
           | h :: t => String c h :: t
           end
  end.

(** [sep.join(l)] *)
Definition join (sep : string) (l : list string) : string := String.concat sep l.

(** [s.replace(old, new)] for one-character [old] and [new]. *)
Fixpoint replace (old new : ascii) (s : string) : string :=
  match s with
  | EmptyString => EmptyString
  | String c s' => String (if Ascii.eqb c old then new else c) (replace old new s')
  end.

(** [s.lstrip(c)] *)
Fixpoint lstrip (c : ascii) (s : string) : string :=
  match s with
  | EmptyString => EmptyString
  | String c' s' => if Ascii.eqb c' c then lstrip c s' else s
  end.

(** [s.count(c)] *)
Fixpoint count (c : ascii) (s : string) : nat :=
  match s with
  | EmptyString => 0
  | String c' s' => (if Ascii.eqb c' c then 1 else 0) + count c s'
  end.

(** [c * n] *)
Fixpoint repeat (c : string) (n : nat) : string :=
  match n with
  | 0 => EmptyString
  | S n' => c +++ repeat c n'
  end.

End Str.

(** ** [os.sep] and [pathlib.PurePosixPath] *)

Definition os_sep : ascii := "/"%char.

Module PurePath.

(** [_PosixFlavour.splitroot]: exactly two leading slashes are kept as
    the root ["//"], any other positive number collapses to ["/"]. *)
Definition splitroot (part : string) : string * string :=
  let stripped := Str.lstrip os_sep part in
  let n := String.length part - String.length stripped in
  if (n =? 0)%nat then (EmptyString, part)
  else if (n =? 2)%nat then ("//", stripped)
  else ("/", stripped).

(** The components kept by the parser: neither empty nor ["."]. *)
Definition keep (x : string) : bool :=
  negb (x =? "")%string && negb (x =? ".")%string.

(** [parse_parts] on one string: the root and the components after it. *)
Definition parse (p : string) : string * list string :=
  let (root, rel) := splitroot p in
  (root, filter keep (Str.split os_sep rel)).

(** [Path(p).parts] *)
Definition parts (p : string) : list string :=
  let (root, tail) := parse p in
  if (root =? "")%string then tail else root :: tail.

(** [str(Path(p))] *)
Definition to_str (p : string) : string :=
  let (root, tail) := parse p in
  let s := root +++ Str.join "/" tail in
  if (s =? "")%string then "." else s.

End PurePath.

(** ** [fnmatch.fnmatch] on POSIX ([normcase] is the identity)

    [fnmatch.translate] turns the pattern into a regular expression
    that is matched against the whole name: [*] is any run of
    characters (["/"] included, and a run of stars is one star), [?] is
    any one character, [[seq]] and [[!seq]] are character sets with
    ranges, a ["["] that is never closed stands for itself, and every other
    character stands for itself. *)

Module Fnmatch.

Inductive item : Type :=
| Single (c : ascii)
| Range (lo hi : ascii).

Inductive tok : Type :=
| TStar
| TAny
| TSet (negated : bool) (items : list item)
| TLit (c : ascii).

(** The members of a set: a hyphen between two characters makes a
    range, and the character after a range never starts another one
    with the hyphen that follows it. *)
Fixpoint set_items (stuff : list ascii) : list item :=
  match stuff with
  | [] => []
  | c :: rest =>
      match rest with
      | h :: hi :: rest' =>
          if Ascii.eqb h "-" then Range c hi :: set_items rest'
          else Single c :: set_items rest
      | _ => Single c :: set_items rest
      end
  end.

(** Scan for the ["]"] closing a set: the text before it and after it. *)
Fixpoint scan_close (s : string) : option (list ascii * string) :=
  match s with
  | EmptyString => None
  | String c s' =>
      if Ascii.eqb c "]" then Some ([], s')
      else match scan_close s' with
           | Some (stuff, rest) => Some (c :: stuff, rest)
           | None => None
           end
  end.

(** What follows a ["["]: an optional ["!"], an optional ["]"] that is a
    member of the set, then everything up to the next ["]"]. *)
Definition bracket (s : string) : option (bool * list ascii * string) :=
  let (negated, s1) :=
    match s with
    | EmptyString => (false, s)
    | String c s' => if Ascii.eqb c "!" then (true, s') else (false, s)
    end in
  match s1 with
  | EmptyString => None
  | String c s2 =>
      if Ascii.eqb c "]" then
        match scan_close s2 with
        | Some (stuff, rest) => Some (negated, "]"%char :: stuff, rest)
        | None => None
        end
      else
        match scan_close s1 with
        | Some (stuff, rest) => Some (negated, stuff, rest)
        | None => None
        end
  end.

(** The loop of [translate]; [prev_star] says that the last token added
    is a star.  The fuel bounds the number of iterations. *)
Fixpoint translate_loop (fuel : nat) (prev_star : bool) (pat : string) : list tok :=
  match fuel with
  | 0 => []
  | S fuel' =>
      match pat with
      | EmptyString => []
      | String c pat' =>
          if Ascii.eqb c "*" then
            if prev_star then translate_loop fuel' true pat'
            else TStar :: translate_loop fuel' true pat'
          else if Ascii.eqb c "?" then TAny :: translate_loop fuel' false pat'
          else if Ascii.eqb c "[" then
            match bracket pat' with
            | None => TLit "[" :: translate_loop fuel' false pat'
            | Some (negated, stuff, rest) =>
                TSet negated (set_items stuff) :: translate_loop fuel' false rest
            end
          else TLit c :: translate_loop fuel' false pat'
      end
  end.

Definition translate (pat : string) : list tok :=
  translate_loop (String.length pat) false pat.

Definition item_match (c : ascii) (i : item) : bool :=
  match i with
  | Single x => Ascii.eqb c x
  | Range lo hi =>
      ((nat_of_ascii lo <=? nat_of_ascii c) && (nat_of_ascii c <=? nat_of_ascii hi))%nat
  end.

Definition tok_match (t : tok) (c : ascii) : bool :=
  match t with
  | TStar => true
  | TAny => true
  | TSet negated items => xorb negated (existsb (item_match c) items)
  | TLit x => Ascii.eqb c x
  end.

(** Matching the whole name against the tokens. *)
Fixpoint match_toks (ts : list tok) (name : string) : bool :=
  match ts with
  | [] => (name =? "")%string
  | TStar :: ts' =>
      (fix star (s : string) : bool :=
         match_toks ts' s ||
         match s with
         | EmptyString => false
         | String _ s' => star s'
         end) name
  | t :: ts' =>
      match name with
      | EmptyString => false
      | String c name' => tok_match t c && match_toks ts' name'
      end
  end.

Definition fnmatch (name pat : string) : bool := match_toks (translate pat) name.

End Fnmatch.

(** ** [os.path] (posixpath) *)

Module OsPath.

(** [os.path.isabs] *)
Definition isabs (s : string) : bool := Str.startswith s "/".

(** [os.path.join(a, b)] *)
Definition join (a b : string) : string :=
  if Str.startswith b "/" then b
  else if (a =? "")%string || Str.endswith a "/" then a +++ b
  else a +++ "/" +++ b.

(** [os.path.join] of all the strings of a list that is not empty. *)
Definition join_all (l : list string) : string :=
  match l with
  | [] => ""
  | a :: p => fold_left join p a
  end.

Definition is_nil {A} (l : list A) : bool :=
  match l with [] => true | _ => false end.

(** [os.path.normpath] *)
Definition normpath (path : string) : string :=
  let initial_slashes :=
    if Str.startswith path "/" then
      if Str.startswith path "//" && negb (Str.startswith path "///") then 2 else 1
    else 0 in
  let new_comps :=
    fold_left
      (fun new_comps comp =>
         if (comp =? "")%string || (comp =? ".")%string then new_comps
         else if negb (comp =? "..")%string
                 || ((initial_slashes =? 0)%nat && is_nil new_comps)
                 || (negb (is_nil new_comps) && (last new_comps "" =? "..")%string)
              then new_comps ++ [comp]
              else removelast new_comps)
      (Str.split "/" path) [] in
  let path := Str.repeat "/" initial_slashes +++ Str.join "/" new_comps in
  if (path =? "")%string then "." else path.

(** [os.path.abspath], with the current directory of the process. *)
Definition abspath (cwd path : string) : string :=
  normpath (if isabs path then path else join cwd path).

(** [os.path.commonprefix] of two lists. *)
Fixpoint commonprefix (l1 l2 : list string) : list string :=
  match l1, l2 with
  | x :: l1', y :: l2' => if (x =? y)%string then x :: commonprefix l1' l2' else []
  | _, _ => []
  end.

Definition nonempty (x : string) : bool := negb (x =? "")%string.

(** [os.path.relpath(path, start)]; [path] is never empty where the script
    calls it (an empty [path] raises [ValueError]). *)
Definition relpath (cwd path start : string) : string :=
  let start_list := filter nonempty (Str.split "/" (abspath cwd start)) in
  let path_list := filter nonempty (Str.split "/" (abspath cwd path)) in
  let i := List.length (commonprefix start_list path_list) in
  let rel_list := List.repeat ".." (List.length start_list - i) ++ skipn i path_list in
  if is_nil rel_list then "." else join_all rel_list.

(** [os.path.basename]: the text after the last separator. *)
Definition basename (p : string) : string := last (Str.split "/" p) "".

(** [s.rfind(c)], counting from index [i] of the first character: [-1]
    when [c] does not occur. *)
Fixpoint rfind_from (c : ascii) (s : string) (i : Z) : Z :=
  match s with
  | EmptyString => (-1)%Z
  | String x s' =>
      let r := rfind_from c s' (i + 1)%Z in
      if (0 <=? r)%Z then r else if Ascii.eqb x c then i else (-1)%Z
  end.

Definition rfind (c : ascii) (s : string) : Z := rfind_from c s 0%Z.

(** [s[i:j]] for indices that are not negative. *)
Definition slice (s : string) (i j : Z) : string :=
  String.substring (Z.to_nat i) (Z.to_nat (j - i)) s.

Fixpoint all_dots (s : string) : bool :=
  match s with
  | EmptyString => true
  | String c s' => Ascii.eqb c "." && all_dots s'
  end.

(** [os.path.splitext]: the extension starts at the last dot of the file
    name, unless only dots come before it in the name. *)
Definition splitext (p : string) : string * string :=
  let sepIndex := rfind "/" p in
  let dotIndex := rfind "." p in
  let n := Z.of_nat (String.length p) in
  if (sepIndex <? dotIndex)%Z && negb (all_dots (slice p (sepIndex + 1) dotIndex))
  then (slice p 0 dotIndex, slice p dotIndex n)
  else (p, "").

End OsPath.

(** ** Sorting: [list.sort()] and [sorted()] are stable and use [<] only *)

Section Sort.

Variable A : Type.
Variable lt : A -> A -> bool.

Fixpoint insert (x : A) (l : list A) : list A :=
  match l with
  | [] => [x]
  | y :: l' => if lt x y then x :: l else y :: insert x l'
  end.

Definition list_sort (l : list A) : list A :=
  fold_left (fun sorted x => insert x sorted) l [].

End Sort.

Arguments insert {A} lt x l.
Arguments list_sort {A} lt l.

(** [<] on [str]: by code point, a proper prefix first. *)
Definition str_lt (a b : string) : bool := String.ltb a b.

(** [<] on pairs of strings, as Python compares tuples. *)
Definition tuple_lt (a b : string * string) : bool :=
  if (fst a =? fst b)%string then str_lt (snd a) (snd b) else str_lt (fst a) (fst b).

(** ** The file system the script reads *)

(** One item of [os.walk]: the directory, its sub-directories, its files. *)
Definition walk_item : Type := string * list string * list string.

Record filesystem : Type := {
  cwd : string;                           (* os.getcwd() *)
  walk : string -> list walk_item;        (* os.walk(top), in the order of the OS *)
  read_bytes : string -> option string    (* the bytes of a file that can be opened *)
}.

(** ** Text files: UTF-8 decoding and universal newlines *)

Definition byte_in (lo hi : nat) (b : ascii) : bool :=
  ((lo <=? nat_of_ascii b) && (nat_of_ascii b <=? hi))%nat.

(** The continuation byte ranges after a lead byte of a three-byte and of a
    four-byte sequence (no overlong form, no surrogate, nothing above
    U+10FFFF). *)
Definition second_of_three (b0 b1 : ascii) : bool :=
  if byte_in 224 224 b0 then byte_in 160 191 b1
  else if byte_in 237 237 b0 then byte_in 128 159 b1
  else byte_in 128 191 b1.

Definition second_of_four (b0 b1 : ascii) : bool :=
  if byte_in 240 240 b0 then byte_in 144 191 b1
  else if byte_in 244 244 b0 then byte_in 128 143 b1
  else byte_in 128 191 b1.

(** Whether the strict [utf-8] codec decodes the bytes. *)
Fixpoint utf8_valid (bs : string) : bool :=
  match bs with
  | EmptyString => true
  | String b0 r0 =>
      if byte_in 0 127 b0 then utf8_valid r0
      else
        match r0 with
        | EmptyString => false
        | String b1 r1 =>
            if byte_in 194 223 b0 then byte_in 128 191 b1 && utf8_valid r1
            else
              match r1 with
              | EmptyString => false
              | String b2 r2 =>
                  if byte_in 224 239 b0 then
                    second_of_three b0 b1 && byte_in 128 191 b2 && utf8_valid r2
                  else
                    match r2 with
                    | EmptyString => false
                    | String b3 r3 =>
                        byte_in 240 244 b0 && second_of_four b0 b1
                        && byte_in 128 191 b2 && byte_in 128 191 b3
                        && utf8_valid r3
                    end
              end
        end
  end.

Definition LF : ascii := ascii_of_nat 10.
Definition CR : ascii := ascii_of_nat 13.
Definition nl : string := String LF "".

(** Reading in text mode turns ["\r\n"] and ["\r"] into ["\n"]. *)
Fixpoint universal_newlines (s : string) : string :=
  match s with
  | EmptyString => EmptyString
  | String c s' =>
      if Ascii.eqb c CR then
        String LF
          match s' with
          | EmptyString => EmptyString
          | String c' s'' =>
              if Ascii.eqb c' LF then universal_newlines s'' else universal_newlines s'
          end
      else String c (universal_newlines s')
  end.

(** ** Effects: the text written to the open output file, and exceptions *)

Inductive exn : Type := UnicodeDecodeError | OSError | IndexError.

Inductive result (A : Type) : Type :=
| Ok (a : A)
| Raise (e : exn).

Arguments Ok {A} a.
Arguments Raise {A} e.

(** A computation takes the text written so far and returns or raises,
    with the text written by then: what is written before an exception
    stays in the file. *)
Definition IO (A : Type) : Type := string -> result A * string.

Definition ret {A} (a : A) : IO A := fun out => (Ok a, out).

Definition bind {A B} (m : IO A) (k : A -> IO B) : IO B :=
  fun out =>
    match m out with
    | (Ok a, out') => k a out'
    | (Raise e, out') => (Raise e, out')
    end.

Definition raise {A} (e : exn) : IO A := fun out => (Raise e, out).

(** [outfile.write(text)] *)
Definition write (text : string) : IO unit := fun out => (Ok tt, out +++ text).

(** [try: body except E: handler], [caught] telling which exceptions [E] names. *)
Definition try_except {A} (body : IO A) (caught : exn -> bool) (handler : IO A) : IO A :=
  fun out =>
    match body out with
    | (Ok a, out') => (Ok a, out')
    | (Raise e, out') => if caught e then handler out' else (Raise e, out')
    end.

Notation "x <- m ;; k" := (bind m (fun x => k))
  (at level 61, m at next level, right associativity).
Notation "m ;;; k" := (bind m (fun _ => k))
  (at level 61, right associativity).

(** [for x in l: body x] *)
Fixpoint for_each {A} (l : list A) (body : A -> IO unit) : IO unit :=
  match l with
  | [] => ret tt
  | x :: l' => body x ;;; for_each l' body
  end.

(** [open(path, 'r', encoding='utf-8')]: the bytes behind the handle. *)
Definition open_read (fs : filesystem) (path : string) : IO string :=
  match read_bytes fs path with
  | Some bytes => ret bytes
  | None => raise OSError
  end.

(** [infile.read()] *)
Definition read_text (bytes : string) : IO string :=
  if utf8_valid bytes then ret (universal_newlines bytes) else raise UnicodeDecodeError.

(** ** The script: patterns and the selector *)

Definition get_default_ignore_patterns : list string :=
  [ "**/venv/**"; "**/*venv/**"; "**/env/**"; "**/*.env/**";
    "**/virtualenv/**"; "**/.virtualenvs/**"; "**/.venv/**"; "**/ENV/**";
    "**/python?env/**";
    "**/.*"; "**/*~"; "**/*.~*~";
    "**/__pycache__/*"; "**/node_modules/*"; "**/build/*"; "**/dist/*";
    "**/target/*"; "**/bin/*"; "**/obj/*";
    "**/*.pyc"; "**/*.class"; "**/*.o"; "**/*.exe"; "**/*.dll"; "**/*.so";
    "**/*.dylib";
    "**/*.jar"; "**/*.war"; "**/*.ear";
    "**/*.zip"; "**/*.tar"; "**/*.gz"; "**/*.rar";
    "**/*~"; "**/*.swp"; "**/*.swo"; "**/*.swn"; "**/*.bak"; "**/*#";
    "**/concat_proj.py"; "**/concat-proj/**" ].

(** Line 81: [str(Path(file_path)).replace(os.sep, '/')]. *)
Definition normalize (file_path : string) : string :=
  Str.replace os_sep "/" (PurePath.to_str file_path).

Definition should_include_file (file_path : string)
    (include_patterns ignore_patterns : list string) : bool :=
  let file_path := normalize file_path in
  let parts := PurePath.parts file_path in
  if existsb (fun part => Str.startswith part ".") parts then false
  else if existsb (fun part => Str.contains "venv" (Str.lower part)) parts then false
  else if Str.endswith file_path "~" then false
  else if existsb (fun pattern => Fnmatch.fnmatch file_path pattern) ignore_patterns
  then false
  else match include_patterns with
       | [] => true
       | _ => existsb (fun pattern => Fnmatch.fnmatch file_path pattern) include_patterns
       end.

(** ** The script: walking, rendering, writing *)

(** Lines 7-15.  The set of extensions is a list without duplicates. *)
Definition get_file_extensions (fs : filesystem) (directory : string) : list string :=
  fold_left
    (fun extensions (item : walk_item) =>
       let '(_, _, files) := item in
       fold_left
         (fun extensions file =>
            let ext := snd (OsPath.splitext file) in
            if (ext =? "")%string then extensions
            else ListSet.set_add string_dec ext extensions)
         files extensions)
    (walk fs directory) (ListSet.empty_set string).

Definition get_relative_path (fs : filesystem) (file_path root_dir : string) : string :=
  OsPath.relpath (cwd fs) file_path root_dir.

(** Lines 132-141: the files that match, in the order of the walk. *)
Definition collect_files (fs : filesystem) (root_dir : string)
    (include_patterns ignore_patterns : list string) : list (string * string) :=
  flat_map
    (fun item : walk_item =>
       let '(root, _, files) := item in
       flat_map
         (fun file =>
            let full_path := OsPath.join root file in
            let rel_path := get_relative_path fs full_path root_dir in
            if should_include_file rel_path include_patterns ignore_patterns
            then [(rel_path, full_path)]
            else [])
         files)
    (walk fs root_dir).

(** The marker in front of every line of the structure: the box-drawing
    characters U+251C, U+2500, U+2500 in UTF-8, and a space. *)
Definition branch : string :=
  String (ascii_of_nat 226) (String (ascii_of_nat 148) (String (ascii_of_nat 156)
  (String (ascii_of_nat 226) (String (ascii_of_nat 148) (String (ascii_of_nat 128)
  (String (ascii_of_nat 226) (String (ascii_of_nat 148) (String (ascii_of_nat 128)
  " ")))))))).

(** [l[i] = v] for [i < len(l)]. *)
Fixpoint list_set (i : nat) (v : string) (l : list string) : list string :=
  match l, i with
  | [], _ => []
  | _ :: l', 0 => v :: l'
  | x :: l', S i' => x :: list_set i' v l'
  end.

(** Lines 155-163: the loop over [enumerate(parts[:-1])], from index [i]. *)
Fixpoint structure_dirs (i : nat) (dirs : list string) (current_dirs : list string)
  : IO (list string) :=
  match dirs with
  | [] => ret current_dirs
  | part :: dirs' =>
      if (List.length current_dirs <=? i)%nat then
        write (Str.repeat "    " i +++ branch +++ part +++ "/" +++ nl) ;;;
        structure_dirs (S i) dirs' (current_dirs ++ [part])
      else if negb (nth i current_dirs "" =? part)%string then
        write (Str.repeat "    " i +++ branch +++ part +++ "/" +++ nl) ;;;
        structure_dirs (S i) dirs' (list_set i part current_dirs)
      else structure_dirs (S i) dirs' current_dirs
  end.

(** Lines 153-166: the loop over the included files. *)
Fixpoint structure_loop (included_files : list (string * string))
    (current_dirs : list string) : IO unit :=
  match included_files with
  | [] => ret tt
  | (rel_path, _) :: rest =>
      let parts := PurePath.parts rel_path in
      current_dirs' <- structure_dirs 0 (removelast parts) current_dirs ;;
      match parts with
      | [] => raise IndexError
      | _ =>
          write (Str.repeat "    " (List.length parts - 1) +++ branch
                 +++ last parts "" +++ nl)
      end ;;;
      structure_loop rest current_dirs'
  end.

(** Lines 148-169. *)
Definition write_structure (root_dir : string) (included_files : list (string * string))
  : IO unit :=
  write ("Project: " +++ OsPath.basename root_dir +++ nl) ;;;
  write ("Directory Structure:" +++ nl) ;;;
  structure_loop included_files [] ;;;
  write (nl +++ "File Contents:" +++ nl) ;;;
  write (Str.repeat "=" 80 +++ nl +++ nl).

Definition is_decode_error (e : exn) : bool :=
  match e with UnicodeDecodeError => true | _ => false end.

(** Lines 173-181: one file of the contents. *)
Definition write_file (fs : filesystem) (rel_path full_path : string) : IO unit :=
  try_except
    (infile <- open_read fs full_path ;;
     write (nl +++ "# File: " +++ rel_path +++ nl) ;;;
     write (Str.repeat "=" 80 +++ nl) ;;;
     (text <- read_text infile ;;
      write text) ;;;
     write (nl +++ Str.repeat "-" 80 +++ nl))
    is_decode_error
    (write (nl +++ "# File: " +++ rel_path +++ " (binary file - contents skipped)" +++ nl) ;;;
     write (Str.repeat "-" 80 +++ nl)).

(** Lines 172-181. *)
Definition write_contents (fs : filesystem) (included_files : list (string * string))
  : IO unit :=
  for_each included_files (fun f => write_file fs (fst f) (snd f)).

(** Lines 128-144: the sorted list of the included files. *)
Definition included_files (fs : filesystem) (root_dir : string)
    (include_patterns ignore_patterns : option (list string)) : list (string * string) :=
  let ignore_patterns :=
    match ignore_patterns with
    | None => get_default_ignore_patterns
    | Some l => l
    end in
  let root_dir := OsPath.abspath (cwd fs) root_dir in
  list_sort tuple_lt
    (collect_files fs root_dir
       (match include_patterns with Some l => l | None => [] end)
       ignore_patterns).

(** [concatenate_files]: how the run ends and the text of the output file,
    which is opened empty.  The files are read as the file system holds
    them when the run starts. *)
Definition concatenate_files (fs : filesystem) (root_dir output_path : string)
    (include_patterns ignore_patterns : option (list string)) (show_structure : bool)
  : result unit * string :=
  let files := included_files fs root_dir include_patterns ignore_patterns in
  let root_dir := OsPath.abspath (cwd fs) root_dir in
  ((if show_structure then write_structure root_dir files else ret tt) ;;;
   write_contents fs files) "".

(** The parsed command line. *)
Record Args : Type := {
  root : string;
  output : string;
  include : option (list string);
  ignore : option (list string);
  no_structure : bool;
  list_extensions : bool
}.

(** What a run of [main] leaves behind: the lines printed, the files
    written with their text, and the exception that ended it, if any. *)
Record Outcome : Type := {
  printed : list string;
  written : list (string * string);
  raised : option exn
}.

Definition truthy (l : option (list string)) : bool :=
  match l with
  | Some (_ :: _) => true
  | _ => false
  end.

(** Lines 218-242. *)
Definition main (fs : filesystem) (args : Args) : Outcome :=
  if list_extensions args then
    let extensions := get_file_extensions fs (root args) in
    {| printed := "File extensions found in project:"
                  :: map (fun ext => "  " +++ ext) (list_sort str_lt extensions);
       written := [];
       raised := None |}
  else
    let ignore_patterns :=
      if truthy (ignore args)
      then get_default_ignore_patterns
           ++ match ignore args with Some l => l | None => [] end
      else get_default_ignore_patterns in
    match concatenate_files fs (root args) (output args) (include args)
            (Some ignore_patterns) (negb (no_structure args)) with
    | (Raise e, text) =>
        {| printed := []; written := [(output args, text)]; raised := Some e |}
    | (Ok _, text) =>
        {| printed :=
             ("Files have been combined into " +++ output args)
             :: (if truthy (include args)
                 then ["Included patterns: "
                       +++ Str.join ", " match include args with Some l => l | None => [] end]
                 else []);
           written := [(output args, text)];
           raised := None |}
    end.

(** ** Vocabulary of the properties *)

(** A component is hidden when it starts with a dot. *)
Definition hidden (part : string) : Prop := exists r, part = "." +++ r.

(** A component names a virtual environment when its lower-case form
    contains ["venv"]. *)
Definition mentions_venv (part : string) : Prop :=
  exists a b, Str.lower part = a +++ "venv" +++ b.

(** A path is a backup file when its normal form ends with a tilde. *)
Definition ends_with_tilde (path : string) : Prop :=
  exists a, normalize path = a +++ "~".

(** The three checks on the path itself (lines 83-94). *)
Definition passes_path_checks (path : string) : Prop :=
  (forall part, In part (PurePath.parts path) -> ~ hidden part) /\
  (forall part, In part (PurePath.parts path) -> ~ mentions_venv part) /\
  ~ ends_with_tilde path.

Definition passes_path_checksb (path : string) : bool :=
  negb (existsb (fun part => Str.startswith part ".") (PurePath.parts path))
  && negb (existsb (fun part => Str.contains "venv" (Str.lower part))
             (PurePath.parts path))
  && negb (Str.endswith (normalize path) "~").

Definition is_root (root : string) : Prop :=
  root = "" \/ root = "/" \/ root = "//".

Definition no_head_sep (rel : string) : Prop := forall r, rel <> String os_sep r.


(** A boolean [<] that is a strict total order. *)
Record strict_total {A : Type} (lt : A -> A -> bool) : Prop := {
  st_asym : forall a b, lt a b = true -> lt b a = false;
  st_trans : forall a b c, lt a b = true -> lt b c = true -> lt a c = true;
  st_tri : forall a b, lt a b = false -> lt b a = false -> a = b
}.

(** A list in ascending order: no element is [<] the one before it. *)
Definition sorted_by {A : Type} (lt : A -> A -> bool) (l : list A) : Prop :=
  Sorted (fun a b => lt b a = false) l.




(** The parts of a string that follow one of its separators. *)
Fixpoint after_sep (s : string) : list string :=
  match s with
  | EmptyString => []
  | String c s' => (if Ascii.eqb c os_sep then [s'] else []) ++ after_sep s'
  end.



(** What follows the first three characters of a pattern. *)
Definition pattern_tail (pattern : string) : string :=
  match pattern with
  | String _ (String _ (String _ q)) => q
  | _ => ""
  end.

(** No part of the path after a separator matches what follows ["**/"] in
    a default pattern. *)
Definition no_default_matchb (path : string) : bool :=
  forallb
    (fun b => forallb (fun q => negb (Fnmatch.fnmatch b q))
                (map pattern_tail get_default_ignore_patterns))
    (after_sep (normalize path)).

(** ** Sample trees *)

Definition byte (n : nat) : string := String (ascii_of_nat n) "".

(** A project [/home/u/proj] with a hidden directory, a virtual
    environment, two directories of the same name under different
    parents, and a file that is not text. *)
Definition sample_items (top : string) : list walk_item :=
  [ (top, [".git"; "a"; "b"; "venv"], ["README"; "logo.bin"]);
    (top +++ "/.git", [], ["hooks.sh"]);
    (top +++ "/a", ["x"], []);
    (top +++ "/a/x", [], ["f1.txt"]);
    (top +++ "/b", ["x"], []);
    (top +++ "/b/x", [], ["f2.txt"]);
    (top +++ "/venv", [], ["lib.py"]) ].

Definition sample_read (path : string) : option string :=
  if (path =? "/home/u/proj/README")%string then Some ("demo" +++ nl)
  else if (path =? "/home/u/proj/logo.bin")%string then Some (byte 255 +++ byte 216)
  else if (path =? "/home/u/proj/a/x/f1.txt")%string then Some ("one" +++ nl)
  else if (path =? "/home/u/proj/b/x/f2.txt")%string then Some "two"
  else if (path =? "/home/u/proj/.git/hooks.sh")%string then Some "exit"
  else if (path =? "/home/u/proj/venv/lib.py")%string then Some "pass"
  else None.

Definition sample_fs : filesystem :=
  {| cwd := "/home/u";
     walk := fun top =>
       if (OsPath.abspath "/home/u" top =? "/home/u/proj")%string
       then sample_items top else [];
     read_bytes := sample_read |}.

Definition sample_args (list_mode : bool) : Args :=
  {| root := "proj";
     output := "/tmp/combined.txt";
     include := None;
     ignore := None;
     no_structure := false;
     list_extensions := list_mode |}.

(** A directory that holds one file, which is not valid UTF-8. *)
Definition binary_fs : filesystem :=
  {| cwd := "/w";
     walk := fun top =>
       if (OsPath.abspath "/w" top =? "/w")%string then [(top, [], ["blob.bin"])] else [];
     read_bytes := fun path =>
       if (path =? "/w/blob.bin")%string then Some (byte 255) else None |}.

(** The text the script writes for a file that cannot be decoded. *)
Definition undecodable_text (rel_path : string) : string :=
  nl +++ "# File: " +++ rel_path +++ nl
  +++ Str.repeat "=" 80 +++ nl
  +++ nl +++ "# File: " +++ rel_path +++ " (binary file - contents skipped)" +++ nl
  +++ Str.repeat "-" 80 +++ nl.

(** ** More vocabulary *)

(** A character that [fnmatch] reads as more than itself. *)
Definition metachar (c : ascii) : bool :=
  Ascii.eqb c "*" || Ascii.eqb c "?" || Ascii.eqb c "[".

(** A pattern without such characters. *)
Fixpoint literal (s : string) : bool :=
  match s with
  | EmptyString => true
  | String c s' => negb (metachar c) && literal s'
  end.

(** The tokens of a literal pattern. *)
Fixpoint lits (s : string) : list Fnmatch.tok :=
  match s with
  | EmptyString => []
  | String c s' => Fnmatch.TLit c :: lits s'
  end.

(** The directories the default ignore list names with a pattern
    ["**/name/*"]. *)
Definition build_directories : list string :=
  ["__pycache__"; "node_modules"; "build"; "dist"; "target"; "bin"; "obj"].

(** The text the script writes for a file that decodes. *)
Definition text_block (rel_path bytes : string) : string :=
  nl +++ "# File: " +++ rel_path +++ nl
  +++ Str.repeat "=" 80 +++ nl
  +++ universal_newlines bytes
  +++ nl +++ Str.repeat "-" 80 +++ nl.

(** The text written for one included file that can be opened. *)
Definition file_text (fs : filesystem) (f : string * string) : string :=
  match read_bytes fs (snd f) with
  | Some bytes =>
      if utf8_valid bytes then text_block (fst f) bytes else undecodable_text (fst f)
  | None => ""
  end.

Definition contents_text (fs : filesystem) (files : list (string * string)) : string :=
  fold_right (fun f text => file_text fs f +++ text) "" files.

(** The name of a directory entry: not empty, no separator, neither
    ["."] nor [".."]. *)
Definition entry_name (x : string) : Prop :=
  x <> "" /\ x <> "." /\ x <> ".." /\ Str.count os_sep x = 0.

Definition entry_nameb (x : string) : bool :=
  negb (x =? "")%string && negb (x =? ".")%string && negb (x =? "..")%string
  && (Str.count os_sep x =? 0)%nat.

(** The absolute path with the given components. *)
Definition abs_of (comps : list string) : string := "/" +++ Str.join "/" comps.

(** The header lines of the directories [dirs], the first at depth [i]. *)
Fixpoint dir_lines (i : nat) (dirs : list string) : string :=
  match dirs with
  | [] => ""
  | part :: dirs' =>
      Str.repeat "    " i +++ branch +++ part +++ "/" +++ nl +++ dir_lines (S i) dirs'
  end.

(** The line of a file at depth [i]. *)
Definition file_line (i : nat) (name : string) : string :=
  Str.repeat "    " i +++ branch +++ name +++ nl.

(** A directory that lists a file which cannot be opened, between two
    that can. *)
Definition broken_fs : filesystem :=
  {| cwd := "/w";
     walk := fun top =>
       if (OsPath.abspath "/w" top =? "/w")%string
       then [(top, [], ["a.txt"; "gone.txt"; "z.txt"])] else [];
     read_bytes := fun path =>
       if (path =? "/w/a.txt")%string then Some "first"
       else if (path =? "/w/z.txt")%string then Some "last"
       else None |}.


(** Bytes below 128. *)
Fixpoint all_ascii (bytes : string) : bool :=
  match bytes with
  | EmptyString => true
  | String c s => (nat_of_ascii c <? 128)%nat && all_ascii s
  end.

(** * Properties *)

(** ** Strings *)

Section StrFacts.

Lemma append_nil_r (s : string) : s +++ "" = s.
Proof. induction s as [|c s IH]; simpl; [reflexivity | now rewrite IH]. Qed.

Lemma append_assoc (a b c : string) : (a +++ b) +++ c = a +++ b +++ c.
Proof. induction a as [|x a IH]; simpl; [reflexivity | now rewrite IH]. Qed.

Lemma startswith_iff (s pre : string) :
  Str.startswith s pre = true <-> exists r, s = pre +++ r.
Proof.
  unfold Str.startswith. revert s.
  induction pre as [|a pre IH]; intros s.
  - destruct s; simpl; split; intros; try reflexivity; eexists; reflexivity.
  - destruct s as [|b s]; simpl.
    + split; [discriminate | intros [r Hr]; discriminate].
    + destruct (ascii_dec a b) as [->|Hab].
      * rewrite IH. split; intros [r Hr]; exists r; congruence.
      * split; [discriminate | intros [r Hr]; congruence].
Qed.

Lemma contains_iff (sub s : string) :
  Str.contains sub s = true <-> exists a b, s = a +++ sub +++ b.
Proof.
  induction s as [|c s IH].
  - change (Str.contains sub "") with (Str.startswith "" sub || false).
    rewrite orb_false_r, startswith_iff.
    split.
    + intros [r Hr]. exists "", r. exact Hr.
    + intros [a [b H]]. destruct a; [now exists b | discriminate].
  - change (Str.contains sub (String c s))
      with (Str.startswith (String c s) sub || Str.contains sub s).
    rewrite orb_true_iff, IH, startswith_iff.
    split.
    + intros [[r Hr] | [a [b H]]].
      * exists "", r. exact Hr.
      * exists (String c a), b. simpl. now rewrite H.
    + intros [a [b H]]. destruct a as [|x a]; simpl in H.
      * left. now exists b.
      * right. exists a, b. congruence.
Qed.

Lemma endswith_iff (s suf : string) :
  Str.endswith s suf = true <-> exists a, s = a +++ suf.
Proof.
  induction s as [|c s IH].
  - change (Str.endswith "" suf) with (("" =? suf)%string || false).
    rewrite orb_false_r, String.eqb_eq. split.
    + intros <-. now exists "".
    + intros [a H]. destruct a; [exact H | discriminate].
  - change (Str.endswith (String c s) suf)
      with ((String c s =? suf)%string || Str.endswith s suf).
    rewrite orb_true_iff, IH, String.eqb_eq. split.
    + intros [<- | [a H]]; [now exists "" |].
      exists (String c a). simpl. now rewrite H.
    + intros [a H]. destruct a as [|x a]; simpl in H.
      * now left.
      * right. exists a. congruence.
Qed.

Lemma replace_same (c : ascii) (s : string) : Str.replace c c s = s.
Proof.
  induction s as [|x s IH]; simpl; [reflexivity |].
  rewrite IH. destruct (Ascii.eqb_spec x c); congruence.
Qed.

Lemma split_not_nil (sep : ascii) (s : string) : Str.split sep s <> [].
Proof.
  destruct s as [|c s]; simpl; [discriminate |].
  destruct (Ascii.eqb c sep); [discriminate |].
  destruct (Str.split sep s); discriminate.
Qed.

(** No piece of a split contains the separator. *)
Lemma split_sep_free (sep : ascii) (s x : string) :
  In x (Str.split sep s) -> Str.count sep x = 0.
Proof.
  revert x. induction s as [|c s IH]; simpl; intros x Hx.
  - destruct Hx as [<- | []]. reflexivity.
  - destruct (Ascii.eqb_spec c sep) as [->|Hc].
    + destruct Hx as [<- | Hx]; [reflexivity | now apply IH].
    + destruct (Str.split sep s) as [|h t] eqn:E.
      * destruct Hx as [<- | []]. simpl.
        destruct (Ascii.eqb_spec c sep); [contradiction | reflexivity].
      * destruct Hx as [<- | Hx].
        -- simpl. destruct (Ascii.eqb_spec c sep); [contradiction |].
           apply IH. now left.
        -- apply IH. now right.
Qed.

(** Splitting a join of separator-free pieces gives the pieces back. *)
Lemma split_join (sep : ascii) (l : list string) :
  l <> [] -> (forall x, In x l -> Str.count sep x = 0) ->
  Str.split sep (Str.join (String sep "") l) = l.
Proof.
  induction l as [|x l IH]; intros Hne Hfree; [contradiction |].
  destruct l as [|y l].
  - simpl. clear IH Hne. specialize (Hfree x (or_introl eq_refl)).
    induction x as [|c x IHx]; simpl in *; [reflexivity |].
    destruct (Ascii.eqb_spec c sep); [discriminate |].
    now rewrite IHx.
  - assert (IH' : Str.split sep (Str.join (String sep "") (y :: l)) = y :: l).
    { apply IH; [discriminate | intros z Hz; apply Hfree; now right]. }
    clear IH Hne. specialize (Hfree x (or_introl eq_refl)).
    change (Str.join (String sep "") (x :: y :: l))
      with (x +++ String sep "" +++ Str.join (String sep "") (y :: l)).
    induction x as [|c x IHx]; simpl in *.
    + rewrite Ascii.eqb_refl. now rewrite IH'.
    + destruct (Ascii.eqb_spec c sep); [discriminate |].
      now rewrite IHx.
Qed.

End StrFacts.

(** ** Paths: parsing the string of a path gives the same path *)

Section PathFacts.

Lemma lstrip_le (c : ascii) (s : string) :
  String.length (Str.lstrip c s) <= String.length s.
Proof.
  induction s as [|x s IH]; simpl; [lia |].
  destruct (Ascii.eqb x c); simpl; lia.
Qed.

Lemma lstrip_head (c : ascii) (s r : string) : Str.lstrip c s <> String c r.
Proof.
  induction s as [|x s IH]; simpl; [discriminate |].
  destruct (Ascii.eqb_spec x c); [exact IH | congruence].
Qed.

Lemma lstrip_idem (c : ascii) (s : string) :
  Str.lstrip c (Str.lstrip c s) = Str.lstrip c s.
Proof.
  induction s as [|x s IH]; simpl; [reflexivity |].
  destruct (Ascii.eqb x c) eqn:E; [exact IH |].
  simpl. now rewrite E.
Qed.

Lemma lstrip_no_head (c : ascii) (s : string) :
  (forall r, s <> String c r) -> Str.lstrip c s = s.
Proof.
  destruct s as [|x s]; simpl; intros H; [reflexivity |].
  destruct (Ascii.eqb_spec x c) as [->|]; [now elim (H s) | reflexivity].
Qed.

Lemma splitroot_spec (p : string) :
  is_root (fst (PurePath.splitroot p)) /\ no_head_sep (snd (PurePath.splitroot p)).
Proof.
  unfold PurePath.splitroot, is_root, no_head_sep.
  destruct p as [|x p].
  - simpl. split; [auto | discriminate].
  - cbn [Str.lstrip]. destruct (Ascii.eqb_spec x os_sep) as [->|Hx].
    + pose proof (lstrip_le os_sep p) as Hle.
      set (n := String.length (String os_sep p) - String.length (Str.lstrip os_sep p)).
      assert (Hn : n <> 0) by (unfold n; cbn [String.length]; lia).
      destruct (Nat.eqb_spec n 0) as [|_]; [contradiction |].
      destruct (n =? 2)%nat; simpl; auto using lstrip_head.
    + rewrite Nat.sub_diag. simpl. split; [auto | congruence].
Qed.

(** A root followed by text that does not begin with a separator is split
    at the end of the root. *)
Lemma splitroot_append (root rel : string) :
  is_root root -> no_head_sep rel ->
  PurePath.splitroot (root +++ rel) = (root, rel).
Proof.
  intros Hroot Hrel. unfold PurePath.splitroot.
  pose proof (lstrip_no_head os_sep rel Hrel) as Hs.
  destruct Hroot as [-> | [-> | ->]];
    cbn [String.append Str.lstrip String.length];
    change (Ascii.eqb "/" os_sep) with true; cbv iota; rewrite Hs.
  - now rewrite Nat.sub_diag.
  - replace (S (String.length rel) - String.length rel) with 1 by lia. reflexivity.
  - replace (S (S (String.length rel)) - String.length rel) with 2 by lia. reflexivity.
Qed.

Lemma keep_spec (x : string) :
  PurePath.keep x = true <-> x <> "" /\ x <> ".".
Proof.
  unfold PurePath.keep.
  rewrite andb_true_iff, !negb_true_iff, !String.eqb_neq. tauto.
Qed.

Lemma filter_all {A} (f : A -> bool) (l : list A) :
  (forall x, In x l -> f x = true) -> filter f l = l.
Proof.
  induction l as [|x l IH]; simpl; intros H; [reflexivity |].
  rewrite (H x (or_introl eq_refl)), IH; auto.
Qed.

(** The components of a parsed path are kept ones and hold no separator. *)
Lemma parse_tail (p x : string) :
  In x (snd (PurePath.parse p)) ->
  PurePath.keep x = true /\ Str.count os_sep x = 0.
Proof.
  unfold PurePath.parse. destruct (PurePath.splitroot p) as [root rel]. simpl.
  rewrite filter_In. intros [Hin Hk]. split; [exact Hk |].
  eapply split_sep_free; eassumption.
Qed.

Lemma join_cons (sep x : string) (l : list string) :
  l <> [] -> Str.join sep (x :: l) = x +++ sep +++ Str.join sep l.
Proof. destruct l; [contradiction | reflexivity]. Qed.

Lemma join_no_head (l : list string) :
  (forall x, In x l -> PurePath.keep x = true /\ Str.count os_sep x = 0) ->
  no_head_sep (Str.join "/" l).
Proof.
  intros H r. destruct l as [|x l]; [discriminate |].
  destruct (H x (or_introl eq_refl)) as [Hk Hc].
  apply keep_spec in Hk. destruct Hk as [Hne _].
  destruct x as [|c x]; [contradiction |].
  destruct l; simpl; intros E; injection E as -> _;
    cbn [Str.count] in Hc; rewrite Ascii.eqb_refl in Hc; discriminate.
Qed.

Lemma parse_to_str (p : string) :
  PurePath.parse (PurePath.to_str p) = PurePath.parse p.
Proof.
  unfold PurePath.to_str.
  pose proof (parse_tail p) as Htail.
  assert (Hroot : is_root (fst (PurePath.parse p))).
  { unfold PurePath.parse. pose proof (splitroot_spec p) as [H _].
    destruct (PurePath.splitroot p); exact H. }
  destruct (PurePath.parse p) as [root tail]. simpl in *.
  destruct tail as [|x tail].
  - simpl. rewrite append_nil_r.
    destruct Hroot as [-> | [-> | ->]]; reflexivity.
  - assert (Hne : ((root +++ Str.join "/" (x :: tail)) =? "")%string = false).
    { apply String.eqb_neq. intros E.
      destruct (Htail x (or_introl eq_refl)) as [Hk _].
      apply keep_spec in Hk. destruct Hk as [Hx _].
      destruct root; [| discriminate].
      destruct x; [contradiction |]. destruct tail; discriminate. }
    rewrite Hne. unfold PurePath.parse.
    rewrite splitroot_append; auto using join_no_head.
    f_equal. change "/" with (String os_sep "") at 1.
    rewrite split_join.
    + apply filter_all. intros y Hy. now apply Htail.
    + discriminate.
    + intros y Hy. now apply Htail.
Qed.

Lemma normalize_to_str (p : string) : normalize p = PurePath.to_str p.
Proof. unfold normalize. apply replace_same. Qed.

(** The components the script inspects are those of the path it was given. *)
Lemma parts_normalize (p : string) :
  PurePath.parts (normalize p) = PurePath.parts p.
Proof.
  rewrite normalize_to_str. unfold PurePath.parts. now rewrite parse_to_str.
Qed.

Lemma normalize_idem (p : string) : normalize (normalize p) = normalize p.
Proof.
  rewrite !normalize_to_str.
  assert (H : forall q r, PurePath.parse q = PurePath.parse r ->
                          PurePath.to_str q = PurePath.to_str r).
  { intros q r E. unfold PurePath.to_str. now rewrite E. }
  apply H, parse_to_str.
Qed.

End PathFacts.

(** ** The file selector *)

Section Selector.

Lemma existsb_false_iff {A} (f : A -> bool) (l : list A) :
  existsb f l = false <-> forall x, In x l -> f x = false.
Proof.
  induction l as [|y l IH]; simpl.
  - split; [intros _ x [] | reflexivity].
  - rewrite orb_false_iff, IH. split.
    + intros [Hy Hl] x [<- | Hx]; auto.
    + intros H. split; [apply H; now left | intros x Hx; apply H; now right].
Qed.

Lemma passes_path_checks_iff (path : string) :
  passes_path_checksb path = true <-> passes_path_checks path.
Proof.
  unfold passes_path_checksb, passes_path_checks, hidden, mentions_venv, ends_with_tilde.
  rewrite !andb_true_iff, !negb_true_iff, !existsb_false_iff.
  split.
  - intros [[Hh Hv] Ht]. repeat split.
    + intros part Hin Hhid. apply startswith_iff in Hhid.
      rewrite (Hh part Hin) in Hhid. discriminate.
    + intros part Hin Hven. apply contains_iff in Hven.
      rewrite (Hv part Hin) in Hven. discriminate.
    + intros Hend. apply endswith_iff in Hend. congruence.
  - intros [Hh [Hv Ht]]. repeat split.
    + intros part Hin. apply not_true_is_false. intros E.
      apply (Hh part Hin). now apply startswith_iff.
    + intros part Hin. apply not_true_is_false. intros E.
      apply (Hv part Hin). now apply contains_iff.
    + apply not_true_is_false. intros E. apply Ht. now apply endswith_iff.
Qed.

(** The decision of the selector, rule by rule. *)
Lemma should_include_file_eq (path : string) (inc ign : list string) :
  should_include_file path inc ign =
  passes_path_checksb path
  && negb (existsb (Fnmatch.fnmatch (normalize path)) ign)
  && match inc with
     | [] => true
     | _ => existsb (Fnmatch.fnmatch (normalize path)) inc
     end.
Proof.
  unfold should_include_file, passes_path_checksb.
  rewrite parts_normalize.
  destruct (existsb _ (PurePath.parts path)); [reflexivity |].
  destruct (existsb _ (PurePath.parts path)); [reflexivity |].
  destruct (Str.endswith (normalize path) "~"); [reflexivity |].
  change (fun pattern => Fnmatch.fnmatch (normalize path) pattern)
    with (Fnmatch.fnmatch (normalize path)).
  destruct (existsb _ ign); reflexivity.
Qed.

Lemma should_include_file_checks (path : string) (inc ign : list string) :
  should_include_file path inc ign = true -> passes_path_checks path.
Proof.
  rewrite should_include_file_eq, !andb_true_iff.
  intros [[H _] _]. now apply passes_path_checks_iff.
Qed.

End Selector.

(** C2: with an empty include list, [should_include_file] accepts every
    path that survives the hidden, venv and tilde checks and matches no
    ignore pattern: an empty include list selects everything that is not
    ignored. *)
Theorem empty_include_accepts_not_ignored (path : string) (ignore_patterns : list string) :
  passes_path_checks path ->
  (forall pattern, In pattern ignore_patterns ->
                   Fnmatch.fnmatch (normalize path) pattern = false) ->
  should_include_file path [] ignore_patterns = true.
Proof.
  intros Hchecks Hign.
  rewrite should_include_file_eq.
  apply passes_path_checks_iff in Hchecks. rewrite Hchecks.
  apply existsb_false_iff in Hign. now rewrite Hign.
Qed.

Lemma empty_include_accepts_not_ignored_witness :
  passes_path_checks "src/main.py" /\
  should_include_file "src/main.py" [] get_default_ignore_patterns = true.
Proof.
  assert (H : passes_path_checks "src/main.py")
    by (apply passes_path_checks_iff; reflexivity).
  split; [exact H |].
  apply (empty_include_accepts_not_ignored "src/main.py" get_default_ignore_patterns H).
  apply existsb_false_iff. reflexivity.
Defined.

(** C3: a path whose normal form matches an ignore pattern is rejected by
    [should_include_file], whatever the include patterns are and whether
    or not it matches one of them: ignore rules come before include
    rules. *)
Theorem ignore_takes_precedence (path : string)
    (include_patterns ignore_patterns : list string) (pattern : string) :
  In pattern ignore_patterns ->
  Fnmatch.fnmatch (normalize path) pattern = true ->
  should_include_file path include_patterns ignore_patterns = false.
Proof.
  intros Hin Hmatch.
  rewrite should_include_file_eq.
  assert (E : existsb (Fnmatch.fnmatch (normalize path)) ignore_patterns = true).
  { apply existsb_exists. now exists pattern. }
  rewrite E. simpl. now rewrite andb_false_r.
Qed.

Lemma ignore_takes_precedence_witness :
  Fnmatch.fnmatch (normalize "src/app.log") "*.log" = true /\
  Fnmatch.fnmatch (normalize "src/app.log") "src/*" = true /\
  should_include_file "src/app.log" ["*.log"] ["src/*"] = false.
Proof.
  split; [reflexivity |]. split; [reflexivity |].
  apply (ignore_takes_precedence "src/app.log" ["*.log"] ["src/*"] "src/*").
  - now left.
  - reflexivity.
Defined.

(** C5: a path with a component whose lower-case form contains ["venv"] is
    rejected by [should_include_file], whatever the include and ignore
    patterns are. *)
Theorem venv_segment_rejected (path part : string)
    (include_patterns ignore_patterns : list string) :
  In part (PurePath.parts path) ->
  mentions_venv part ->
  should_include_file path include_patterns ignore_patterns = false.
Proof.
  intros Hin Hvenv.
  destruct (should_include_file path include_patterns ignore_patterns) eqn:E;
    [| reflexivity].
  apply should_include_file_checks in E.
  destruct E as [_ [Hv _]]. now elim (Hv part Hin).
Qed.

Lemma venv_segment_rejected_witness :
  mentions_venv "venv" /\ mentions_venv "MyVenv" /\ mentions_venv "project-VENV" /\
  should_include_file "venv/a.py" ["**"] [] = false /\
  should_include_file "src/MyVenv/a.py" ["**"] [] = false /\
  should_include_file "project-VENV" ["**"] [] = false.
Proof.
  assert (H1 : mentions_venv "venv") by (exists "", ""; reflexivity).
  assert (H2 : mentions_venv "MyVenv") by (exists "my", ""; reflexivity).
  assert (H3 : mentions_venv "project-VENV") by (exists "project-", ""; reflexivity).
  split; [exact H1 |]. split; [exact H2 |]. split; [exact H3 |].
  split; [| split].
  - apply (venv_segment_rejected "venv/a.py" "venv" ["**"] []); [now left | exact H1].
  - apply (venv_segment_rejected "src/MyVenv/a.py" "MyVenv" ["**"] []);
      [right; now left | exact H2].
  - apply (venv_segment_rejected "project-VENV" "project-VENV" ["**"] []);
      [now left | exact H3].
Defined.

(** C6: a path whose normal form ends with a tilde is rejected by
    [should_include_file], also when it matches an include pattern. *)
Theorem tilde_rejected (path : string) (include_patterns ignore_patterns : list string) :
  ends_with_tilde path ->
  should_include_file path include_patterns ignore_patterns = false.
Proof.
  intros Htilde.
  destruct (should_include_file path include_patterns ignore_patterns) eqn:E;
    [| reflexivity].
  apply should_include_file_checks in E.
  destruct E as [_ [_ Ht]]. now elim Ht.
Qed.

Lemma tilde_rejected_witness :
  ends_with_tilde "notes/todo.txt~" /\
  Fnmatch.fnmatch (normalize "notes/todo.txt~") "**.txt~" = true /\
  should_include_file "notes/todo.txt~" ["**.txt~"] [] = false.
Proof.
  assert (H : ends_with_tilde "notes/todo.txt~") by (exists "notes/todo.txt"; reflexivity).
  split; [exact H |]. split; [reflexivity |].
  exact (tilde_rejected "notes/todo.txt~" ["**.txt~"] [] H).
Defined.

(** ** Sorting *)

Section SortFacts.

Context {A : Type} (lt : A -> A -> bool) (Hlt : strict_total lt).

Lemma insert_perm (x : A) (l : list A) : Permutation (insert lt x l) (x :: l).
Proof.
  induction l as [|y l IH]; simpl; [reflexivity |].
  destruct (lt x y); [reflexivity |].
  rewrite IH. apply perm_swap.
Qed.

Lemma sort_loop_perm (l acc : list A) :
  Permutation (fold_left (fun sorted x => insert lt x sorted) l acc) (l ++ acc).
Proof.
  revert acc. induction l as [|x l IH]; intros acc; simpl; [reflexivity |].
  rewrite IH, insert_perm. symmetry. apply Permutation_middle.
Qed.

Lemma list_sort_perm (l : list A) : Permutation (list_sort lt l) l.
Proof. unfold list_sort. rewrite sort_loop_perm. now rewrite app_nil_r. Qed.

Lemma list_sort_In (l : list A) (x : A) : In x (list_sort lt l) <-> In x l.
Proof.
  split; apply Permutation_in; [| symmetry]; apply list_sort_perm.
Qed.

Lemma insert_sorted (x : A) (l : list A) :
  sorted_by lt l -> sorted_by lt (insert lt x l).
Proof.
  unfold sorted_by. induction l as [|y l IH]; intros Hs; simpl.
  - repeat constructor.
  - destruct (lt x y) eqn:E.
    + constructor; [exact Hs |]. constructor. now apply (st_asym lt Hlt).
    + inversion Hs as [|? ? Hs' Hhd]; subst.
      constructor; [now apply IH |].
      destruct l as [|z l]; simpl.
      * now constructor.
      * destruct (lt x z); constructor; [exact E |].
        now inversion Hhd.
Qed.

Lemma sort_loop_sorted (l acc : list A) :
  sorted_by lt acc ->
  sorted_by lt (fold_left (fun sorted x => insert lt x sorted) l acc).
Proof.
  revert acc. induction l as [|x l IH]; intros acc Hacc; simpl; [exact Hacc |].
  apply IH. now apply insert_sorted.
Qed.

Lemma list_sort_sorted (l : list A) : sorted_by lt (list_sort lt l).
Proof. apply sort_loop_sorted. constructor. Qed.





End SortFacts.

Section StringOrder.

Lemma ascii_compare_lt_trans (a b c : ascii) :
  Ascii.compare a b = Lt -> Ascii.compare b c = Lt -> Ascii.compare a c = Lt.
Proof.
  unfold Ascii.compare. rewrite !N.compare_lt_iff. lia.
Qed.

Lemma ascii_compare_refl (a : ascii) : Ascii.compare a a = Eq.
Proof. unfold Ascii.compare. apply N.compare_refl. Qed.

Lemma string_compare_lt_trans (a b c : string) :
  String.compare a b = Lt -> String.compare b c = Lt -> String.compare a c = Lt.
Proof.
  revert b c. induction a as [|x a IH]; intros [|y b] [|z c]; simpl;
    try discriminate; try reflexivity.
  destruct (Ascii.compare x y) eqn:Exy; try discriminate;
    destruct (Ascii.compare y z) eqn:Eyz; try discriminate; intros H1 H2.
  - apply Ascii.compare_eq_iff in Exy, Eyz. subst.
    rewrite ascii_compare_refl. eapply IH; eassumption.
  - apply Ascii.compare_eq_iff in Exy. subst. now rewrite Eyz.
  - apply Ascii.compare_eq_iff in Eyz. subst. now rewrite Exy.
  - now rewrite (ascii_compare_lt_trans x y z).
Qed.

Lemma str_lt_strict_total : strict_total str_lt.
Proof.
  unfold str_lt, String.ltb. constructor.
  - intros a b. rewrite (String.compare_antisym b a).
    destruct (String.compare a b); simpl; congruence.
  - intros a b c.
    destruct (String.compare a b) eqn:E1; try discriminate.
    destruct (String.compare b c) eqn:E2; try discriminate.
    now rewrite (string_compare_lt_trans a b c).
  - intros a b. rewrite (String.compare_antisym b a).
    destruct (String.compare a b) eqn:E; simpl; try discriminate.
    intros _ _. now apply String.compare_eq_iff.
Qed.



End StringOrder.

(** ** The included files *)

Section IncludedFiles.

Lemma collect_files_In (fs : filesystem) (root_dir : string)
    (inc ign : list string) (rel_path full_path : string) :
  In (rel_path, full_path) (collect_files fs root_dir inc ign) ->
  should_include_file rel_path inc ign = true.
Proof.
  unfold collect_files. rewrite in_flat_map.
  intros [[[dir dirs] files] [_ Hin]].
  rewrite in_flat_map in Hin. destruct Hin as [file [_ Hin]].
  destruct (should_include_file _ inc ign) eqn:E; [| contradiction].
  destruct Hin as [Heq | []]. now inversion Heq; subst.
Qed.

(** Every included file was accepted by the selector. *)
Lemma included_files_In (fs : filesystem) (root_dir : string)
    (inc ign : option (list string)) (rel_path full_path : string) :
  In (rel_path, full_path) (included_files fs root_dir inc ign) ->
  should_include_file rel_path
    (match inc with Some l => l | None => [] end)
    (match ign with Some l => l | None => get_default_ignore_patterns end) = true.
Proof.
  unfold included_files. rewrite list_sort_In. apply collect_files_In.
Qed.









End IncludedFiles.

(** C4: a path with a component that starts with a dot, a parent directory
    or the file name itself, is rejected by [should_include_file] whatever
    the include and ignore patterns are, and is not among the included
    files of any run. *)
Theorem hidden_segment_rejected (path part : string) :
  In part (PurePath.parts path) ->
  hidden part ->
  (forall include_patterns ignore_patterns,
      should_include_file path include_patterns ignore_patterns = false) /\
  (forall fs root_dir include_patterns ignore_patterns full_path,
      ~ In (path, full_path) (included_files fs root_dir include_patterns ignore_patterns)).
Proof.
  intros Hin Hhid.
  assert (Hrej : forall inc ign, should_include_file path inc ign = false).
  { intros inc ign. destruct (should_include_file path inc ign) eqn:E; [| reflexivity].
    apply should_include_file_checks in E.
    destruct E as [Hh _]. now elim (Hh part Hin). }
  split; [exact Hrej |].
  intros fs root_dir inc ign full_path Hfile.
  apply included_files_In in Hfile. rewrite Hrej in Hfile. discriminate.
Qed.

Lemma hidden_segment_rejected_witness :
  hidden ".hidden" /\
  should_include_file "a/.hidden" ["**"] [] = false /\
  should_include_file ".git/config.py" ["**.py"] [] = false.
Proof.
  assert (H1 : hidden ".hidden") by (exists "hidden"; reflexivity).
  assert (H2 : hidden ".git") by (exists "git"; reflexivity).
  split; [exact H1 |]. split.
  - apply (hidden_segment_rejected "a/.hidden" ".hidden"); [right; now left | exact H1].
  - apply (hidden_segment_rejected ".git/config.py" ".git"); [now left | exact H2].
Defined.

(** ** The extensions of a tree *)

Section Extensions.

(** The extension of a file of the walk. *)
Lemma extensions_of_files (files : list string) (extensions : list string) (e : string) :
  In e (fold_left
          (fun extensions file =>
             let ext := snd (OsPath.splitext file) in
             if (ext =? "")%string then extensions
             else ListSet.set_add string_dec ext extensions)
          files extensions)
  <-> In e extensions \/
      (e <> "" /\ exists file, In file files /\ snd (OsPath.splitext file) = e).
Proof.
  revert extensions. induction files as [|f files IH]; intros extensions; simpl.
  - split; [auto | intros [H | [_ [file [[] _]]]]; exact H].
  - rewrite IH. destruct (String.eqb_spec (snd (OsPath.splitext f)) "") as [E|E].
    + split.
      * intros [H | [Hne [file [Hin Hext]]]]; [now left |].
        right. split; [exact Hne |]. exists file. auto.
      * intros [H | [Hne [file [[<- | Hin] Hext]]]]; [now left | congruence |].
        right. split; [exact Hne |]. now exists file.
    + split.
      * intros [H | [Hne [file [Hin Hext]]]].
        -- apply ListSet.set_add_elim in H. destruct H as [-> | H]; [| now left].
           right. split; [exact E |]. exists f. auto.
        -- right. split; [exact Hne |]. exists file. auto.
      * intros [H | [Hne [file [[<- | Hin] Hext]]]].
        -- left. now apply ListSet.set_add_intro1.
        -- left. apply ListSet.set_add_intro2. now symmetry.
        -- right. split; [exact Hne |]. now exists file.
Qed.

Lemma extensions_of_files_nodup (files : list string) (extensions : list string) :
  NoDup extensions ->
  NoDup (fold_left
           (fun extensions file =>
              let ext := snd (OsPath.splitext file) in
              if (ext =? "")%string then extensions
              else ListSet.set_add string_dec ext extensions)
           files extensions).
Proof.
  revert extensions. induction files as [|f files IH]; intros extensions Hnd; simpl;
    [exact Hnd |].
  apply IH. destruct (snd (OsPath.splitext f) =? "")%string; [exact Hnd |].
  now apply ListSet.set_add_nodup.
Qed.

(** An extension of the tree: the extension, not empty, of a file that
    the walk lists. *)
Lemma get_file_extensions_In (fs : filesystem) (directory e : string) :
  In e (get_file_extensions fs directory) <->
  e <> "" /\
  exists dir dirs files file,
    In (dir, dirs, files) (walk fs directory) /\ In file files /\
    snd (OsPath.splitext file) = e.
Proof.
  unfold get_file_extensions.
  assert (H : forall items extensions,
    In e (fold_left
            (fun extensions (item : walk_item) =>
               let '(_, _, files) := item in
               fold_left
                 (fun extensions file =>
                    let ext := snd (OsPath.splitext file) in
                    if (ext =? "")%string then extensions
                    else ListSet.set_add string_dec ext extensions)
                 files extensions)
            items extensions)
    <-> In e extensions \/
        (e <> "" /\ exists dir dirs files file,
            In (dir, dirs, files) items /\ In file files /\
            snd (OsPath.splitext file) = e)).
  { induction items as [|[[dir dirs] files] items IH]; intros extensions; simpl.
    - split; [auto | intros [H | [_ [? [? [? [? [[] _]]]]]]]; exact H].
    - rewrite IH, extensions_of_files. split.
      + intros [[H | [Hne [file [Hin Hext]]]] | [Hne [d [ds [fl [file [Hin [Hf Hext]]]]]]]].
        * now left.
        * right. split; [exact Hne |]. exists dir, dirs, files, file. auto.
        * right. split; [exact Hne |]. exists d, ds, fl, file. auto.
      + intros [H | [Hne [d [ds [fl [file [[Heq | Hin] [Hf Hext]]]]]]]].
        * left. now left.
        * inversion Heq; subst. left. right. split; [exact Hne |]. now exists file.
        * right. split; [exact Hne |]. exists d, ds, fl, file. auto. }
  rewrite H. unfold ListSet.empty_set. simpl. tauto.
Qed.

Lemma get_file_extensions_nodup (fs : filesystem) (directory : string) :
  NoDup (get_file_extensions fs directory).
Proof.
  unfold get_file_extensions.
  assert (H : forall items extensions, NoDup extensions ->
    NoDup (fold_left
            (fun extensions (item : walk_item) =>
               let '(_, _, files) := item in
               fold_left
                 (fun extensions file =>
                    let ext := snd (OsPath.splitext file) in
                    if (ext =? "")%string then extensions
                    else ListSet.set_add string_dec ext extensions)
                 files extensions)
            items extensions)).
  { induction items as [|[[dir dirs] files] items IH]; intros extensions Hnd; simpl;
      [exact Hnd |].
    apply IH. now apply extensions_of_files_nodup. }
  apply H. constructor.
Qed.

(** Sorting a list without duplicates gives a strictly ascending list. *)
Lemma sorted_nodup_strict (l : list string) :
  NoDup l -> sorted_by str_lt l -> Sorted (fun a b => str_lt a b = true) l.
Proof.
  unfold sorted_by. intros Hnd Hs. induction Hs as [|a l Hs IH Hhd]; constructor.
  - apply IH. now inversion Hnd.
  - destruct Hhd as [|b l Hba]; constructor.
    destruct (str_lt a b) eqn:E; [reflexivity |].
    pose proof (st_tri str_lt str_lt_strict_total a b E Hba). subst.
    inversion Hnd as [|? ? Hnot _]; subst. elim Hnot. now left.
Qed.




End Extensions.

(** ** Runs of the tool *)

Section Runs.




End Runs.



(** C9: in list-extensions mode the tool prints, after a title line, the
    distinct extensions, none empty, of all the files the walk lists, with
    no filter on the paths, in ascending order, and it writes no file and
    raises nothing. *)
Theorem list_extensions_mode (fs : filesystem) (args : Args) :
  list_extensions args = true ->
  raised (main fs args) = None /\
  written (main fs args) = [] /\
  exists extensions,
    printed (main fs args)
    = "File extensions found in project:" :: map (fun ext => "  " +++ ext) extensions /\
    Sorted (fun a b => str_lt a b = true) extensions /\
    forall ext,
      In ext extensions <->
      ext <> "" /\
      exists dir dirs files file,
        In (dir, dirs, files) (walk fs (root args)) /\ In file files /\
        snd (OsPath.splitext file) = ext.
Proof.
  intros Hmode. unfold main. rewrite Hmode. simpl.
  split; [reflexivity |]. split; [reflexivity |].
  exists (list_sort str_lt (get_file_extensions fs (root args))).
  split; [reflexivity |]. split.
  - apply sorted_nodup_strict.
    + eapply Permutation_NoDup; [symmetry; apply list_sort_perm |].
      apply get_file_extensions_nodup.
    + apply (list_sort_sorted str_lt str_lt_strict_total).
  - intros ext. rewrite list_sort_In. apply get_file_extensions_In.
Qed.

Lemma list_extensions_mode_witness :
  list_extensions (sample_args true) = true /\
  written (main sample_fs (sample_args true)) = [] /\
  printed (main sample_fs (sample_args true))
  = ["File extensions found in project:"; "  .bin"; "  .py"; "  .sh"; "  .txt"].
Proof.
  split; [reflexivity |]. split.
  - exact (proj1 (proj2 (list_extensions_mode sample_fs (sample_args true) eq_refl))).
  - reflexivity.
Defined.

(** C7: what the script writes for a file whose bytes are not UTF-8.  The
    header of a text file and the line of [=] are written before the read
    fails, so they come before the header of a binary file and the line of
    dashes; none of the file's bytes are written and nothing is raised. *)
Theorem undecodable_file_output (fs : filesystem) (rel_path full_path bytes out : string) :
  read_bytes fs full_path = Some bytes ->
  utf8_valid bytes = false ->
  write_file fs rel_path full_path out = (Ok tt, out +++ undecodable_text rel_path).
Proof.
  intros Hread Hbad.
  unfold write_file, try_except, bind, open_read, read_text, write, raise, ret.
  rewrite Hread, Hbad. cbv beta iota delta [is_decode_error].
  unfold undecodable_text. now rewrite !append_assoc.
Qed.

Lemma undecodable_file_output_witness :
  read_bytes binary_fs "/w/blob.bin" = Some (byte 255) /\
  utf8_valid (byte 255) = false /\
  write_file binary_fs "blob.bin" "/w/blob.bin" ""
  = (Ok tt, undecodable_text "blob.bin") /\
  concatenate_files binary_fs "." "/tmp/out.txt" None None false
  = (Ok tt, undecodable_text "blob.bin").
Proof.
  split; [reflexivity |]. split; [reflexivity |]. split.
  - exact (undecodable_file_output binary_fs "blob.bin" "/w/blob.bin" (byte 255) ""
             eq_refl eq_refl).
  - reflexivity.
Defined.

(** C8: the structure written for the sorted paths [a/x/f1.txt] and
    [b/x/f2.txt].  The second directory [x], under [b], gets no line of
    its own: the name remembered at that depth is still [x], from [a/x]. *)
Theorem structure_misses_directory :
  included_files sample_fs "proj" (Some ["**.txt"]) None
  = [("a/x/f1.txt", "/home/u/proj/a/x/f1.txt");
     ("b/x/f2.txt", "/home/u/proj/b/x/f2.txt")] /\
  structure_loop
    [("a/x/f1.txt", "/home/u/proj/a/x/f1.txt");
     ("b/x/f2.txt", "/home/u/proj/b/x/f2.txt")] [] ""
  = (Ok tt,
     branch +++ "a/" +++ nl
     +++ "    " +++ branch +++ "x/" +++ nl
     +++ "        " +++ branch +++ "f1.txt" +++ nl
     +++ branch +++ "b/" +++ nl
     +++ "        " +++ branch +++ "f2.txt" +++ nl).
Proof.
  split; vm_compute; reflexivity.
Qed.

(** ** Patterns *)

Section FnmatchFacts.

Lemma scan_close_shorter (s : string) (stuff : list ascii) (rest : string) :
  Fnmatch.scan_close s = Some (stuff, rest) -> String.length rest < String.length s.
Proof.
  revert stuff. induction s as [|c s IH]; intros stuff; simpl; [discriminate |].
  destruct (Ascii.eqb c "]").
  - intros H. inversion H; subst. lia.
  - destruct (Fnmatch.scan_close s) as [[stuff' rest']|]; [| discriminate].
    intros H. inversion H; subst. specialize (IH _ eq_refl). lia.
Qed.

Lemma bracket_shorter (s : string) (negated : bool) (stuff : list ascii) (rest : string) :
  Fnmatch.bracket s = Some (negated, stuff, rest) ->
  String.length rest < String.length s.
Proof.
  assert (H : forall (b : bool) s1,
             match s1 with
             | EmptyString => None
             | String c s2 =>
                 if Ascii.eqb c "]" then
                   match Fnmatch.scan_close s2 with
                   | Some (stuff, rest) => Some (b, "]"%char :: stuff, rest)
                   | None => None
                   end
                 else
                   match Fnmatch.scan_close s1 with
                   | Some (stuff, rest) => Some (b, stuff, rest)
                   | None => None
                   end
             end = Some (negated, stuff, rest) ->
             String.length rest < String.length s1).
  { intros b [|c s2]; [discriminate |].
    destruct (Ascii.eqb c "]").
    - destruct (Fnmatch.scan_close s2) as [[st r]|] eqn:E; [| discriminate].
      intros H. inversion H; subst. apply scan_close_shorter in E. simpl. lia.
    - destruct (Fnmatch.scan_close (String c s2)) as [[st r]|] eqn:E; [| discriminate].
      intros H. inversion H; subst. now apply scan_close_shorter in E. }
  unfold Fnmatch.bracket. destruct s as [|c s']; [discriminate |].
  destruct (Ascii.eqb c "!"); intros E.
  - apply H in E. simpl. lia.
  - apply (H false (String c s')) in E. exact E.
Qed.

(** The fuel of [translate] is enough: more fuel gives the same tokens. *)
Lemma translate_loop_fuel (n m : nat) (prev_star : bool) (pat : string) :
  String.length pat <= n -> String.length pat <= m ->
  Fnmatch.translate_loop n prev_star pat = Fnmatch.translate_loop m prev_star pat.
Proof.
  revert m prev_star pat. induction n as [|n IH]; intros m prev_star pat Hn Hm.
  - destruct pat; [| simpl in Hn; lia]. destruct m; reflexivity.
  - destruct pat as [|c pat]; [destruct m; reflexivity |].
    destruct m as [|m]; [simpl in Hm; lia |].
    simpl in Hn, Hm. cbn [Fnmatch.translate_loop].
    destruct (Ascii.eqb c "*").
    { destruct prev_star; [| f_equal]; apply IH; lia. }
    destruct (Ascii.eqb c "?").
    { f_equal. apply IH; lia. }
    destruct (Ascii.eqb c "[").
    { destruct (Fnmatch.bracket pat) as [[[negated stuff] rest]|] eqn:E.
      - apply bracket_shorter in E. f_equal. apply IH; lia.
      - f_equal. apply IH; lia. }
    f_equal. apply IH; lia.
Qed.

Lemma match_star (ts : list Fnmatch.tok) (s : string) :
  Fnmatch.match_toks (Fnmatch.TStar :: ts) s = true <->
  exists a b, s = a +++ b /\ Fnmatch.match_toks ts b = true.
Proof.
  induction s as [|c s IH].
  - cbn [Fnmatch.match_toks]. rewrite orb_false_r. split.
    + intros H. now exists "", "".
    + intros [a [b [E H]]]. destruct a; [| discriminate]. simpl in E. now subst.
  - change (Fnmatch.match_toks (Fnmatch.TStar :: ts) (String c s))
      with (Fnmatch.match_toks ts (String c s)
            || Fnmatch.match_toks (Fnmatch.TStar :: ts) s).
    rewrite orb_true_iff, IH. split.
    + intros [H | [a [b [E H]]]].
      * now exists "", (String c s).
      * exists (String c a), b. simpl. now rewrite E.
    + intros [a [b [E H]]]. destruct a as [|x a]; simpl in E.
      * left. now subst.
      * right. inversion E; subst. now exists a, b.
Qed.

Lemma match_lit (c : ascii) (ts : list Fnmatch.tok) (s : string) :
  Fnmatch.match_toks (Fnmatch.TLit c :: ts) s = true <->
  exists s', s = String c s' /\ Fnmatch.match_toks ts s' = true.
Proof.
  destruct s as [|x s]; cbn [Fnmatch.match_toks Fnmatch.tok_match].
  - split; [discriminate | intros [s' [E _]]; discriminate].
  - rewrite andb_true_iff. split.
    + intros [Hx H]. apply Ascii.eqb_eq in Hx. subst. now exists s.
    + intros [s' [E H]]. inversion E; subst. now rewrite Ascii.eqb_refl.
Qed.

Lemma translate_any_depth (q : string) :
  Fnmatch.translate ("**/" +++ q)
  = Fnmatch.TStar :: Fnmatch.TLit "/" :: Fnmatch.translate q.
Proof. reflexivity. Qed.

(** A pattern ["**/q"] matches the names that hold a separator followed by
    a match of [q]. *)
Lemma fnmatch_any_depth (name q : string) :
  Fnmatch.fnmatch name ("**/" +++ q) = true <->
  exists a b, name = a +++ "/" +++ b /\ Fnmatch.fnmatch b q = true.
Proof.
  unfold Fnmatch.fnmatch. rewrite translate_any_depth, match_star. split.
  - intros [a [b [E H]]]. apply match_lit in H. destruct H as [s' [-> H]].
    now exists a, s'.
  - intros [a [b [E H]]]. exists a, ("/" +++ b). split; [exact E |].
    apply match_lit. now exists b.
Qed.

Lemma after_sep_iff (s b : string) :
  In b (after_sep s) <-> exists a, s = a +++ "/" +++ b.
Proof.
  induction s as [|c s IH]; simpl.
  - split; [contradiction | intros [a E]; destruct a; discriminate].
  - rewrite in_app_iff, IH. split.
    + intros [H | [a E]].
      * destruct (Ascii.eqb_spec c os_sep) as [->|]; [| contradiction].
        destruct H as [<- | []]. now exists "".
      * exists (String c a). simpl. now rewrite E.
    + intros [a E]. destruct a as [|x a]; simpl in E; inversion E; subst.
      * left. now left.
      * right. now exists a.
Qed.

Lemma default_patterns_any_depth (pattern : string) :
  In pattern get_default_ignore_patterns -> pattern = "**/" +++ pattern_tail pattern.
Proof.
  unfold get_default_ignore_patterns. simpl.
  intros H. repeat (destruct H as [<- | H]; [reflexivity |]). contradiction.
Qed.

Lemma no_default_match_iff (path : string) :
  no_default_matchb path = true <->
  forall a b q, normalize path = a +++ "/" +++ b ->
                In ("**/" +++ q) get_default_ignore_patterns ->
                Fnmatch.fnmatch b q = false.
Proof.
  unfold no_default_matchb. rewrite forallb_forall. split.
  - intros H a b q E Hin.
    assert (Hb : In b (after_sep (normalize path))) by (apply after_sep_iff; now exists a).
    specialize (H b Hb). rewrite forallb_forall in H.
    apply negb_true_iff, H.
    change q with (pattern_tail ("**/" +++ q)). now apply in_map.
  - intros H b Hb. apply after_sep_iff in Hb. destruct Hb as [a E].
    apply forallb_forall. intros q Hq. apply in_map_iff in Hq.
    destruct Hq as [pattern [<- Hin]]. apply negb_true_iff.
    apply (H a b (pattern_tail pattern) E).
    now rewrite <- default_patterns_any_depth.
Qed.

End FnmatchFacts.

(** C10, as the code has it: every default ignore pattern is ["**/q"], and
    a path matches it exactly when the path holds a ["/"] followed by a
    match of [q].  So, with the default ignore list and an empty include
    list, [should_include_file] accepts exactly the paths that pass the
    hidden, venv and tilde checks and in which nothing that follows a
    ["/"] matches the [q] of a default pattern. *)
Theorem default_ignore_needs_separator (path : string) :
  (forall pattern, In pattern get_default_ignore_patterns ->
     exists q, pattern = "**/" +++ q /\
       (Fnmatch.fnmatch (normalize path) pattern = true <->
        exists a b, normalize path = a +++ "/" +++ b /\ Fnmatch.fnmatch b q = true)) /\
  (should_include_file path [] get_default_ignore_patterns = true <->
   passes_path_checks path /\
   forall a b q, normalize path = a +++ "/" +++ b ->
                 In ("**/" +++ q) get_default_ignore_patterns ->
                 Fnmatch.fnmatch b q = false).
Proof.
  split.
  - intros pattern Hin. exists (pattern_tail pattern).
    pose proof (default_patterns_any_depth pattern Hin) as E.
    split; [exact E |]. rewrite E at 1. apply fnmatch_any_depth.
  - rewrite should_include_file_eq, andb_true_r, andb_true_iff, negb_true_iff.
    rewrite passes_path_checks_iff, existsb_false_iff.
    split; intros [Hchecks Hign]; split; try exact Hchecks.
    + intros a b q E Hin. destruct (Fnmatch.fnmatch b q) eqn:Hm; [| reflexivity].
      rewrite <- (Hign _ Hin). symmetry. apply fnmatch_any_depth. now exists a, b.
    + intros pattern Hin.
      destruct (Fnmatch.fnmatch (normalize path) pattern) eqn:Hm; [| reflexivity].
      pose proof (default_patterns_any_depth pattern Hin) as E.
      assert (Hin' : In ("**/" +++ pattern_tail pattern) get_default_ignore_patterns)
        by (rewrite <- E; exact Hin).
      rewrite E in Hm. apply fnmatch_any_depth in Hm.
      destruct Hm as [a [b [E' Hm]]].
      rewrite <- Hm. eapply Hign; eassumption.
Qed.

Lemma default_ignore_needs_separator_witness :
  passes_path_checks "build/notes.txt" /\
  should_include_file "build/notes.txt" [] get_default_ignore_patterns = true /\
  passes_path_checks "concat_proj.py" /\
  should_include_file "concat_proj.py" [] get_default_ignore_patterns = true.
Proof.
  assert (H1 : passes_path_checks "build/notes.txt")
    by (apply passes_path_checks_iff; reflexivity).
  assert (H2 : passes_path_checks "concat_proj.py")
    by (apply passes_path_checks_iff; reflexivity).
  split; [exact H1 |]. split; [| split; [exact H2 |]].
  - apply (proj2 (default_ignore_needs_separator "build/notes.txt")).
    split; [exact H1 |]. apply no_default_match_iff. reflexivity.
  - apply (proj2 (default_ignore_needs_separator "concat_proj.py")).
    split; [exact H2 |]. apply no_default_match_iff. reflexivity.
Defined.

(** C10 fails as it is stated: [build/build/x] has [build] as its first
    component and passes the three checks on the path, but it matches
    ["**/build/*"] through its second [build], and is rejected. *)
Lemma first_segment_counterexample :
  In "**/build/*" get_default_ignore_patterns /\
  hd "" (PurePath.parts "build/build/x") = "build" /\
  passes_path_checks "build/build/x" /\
  Fnmatch.fnmatch (normalize "build/build/x") "**/build/*" = true /\
  should_include_file "build/build/x" [] get_default_ignore_patterns = false.
Proof.
  split.
  - unfold get_default_ignore_patterns. repeat (first [left; reflexivity | right]).
  - split; [reflexivity |]. split; [apply passes_path_checks_iff; reflexivity |].
    split; reflexivity.
Qed.

(** ** The text between the separators of a path *)

Section RawSegments.

Lemma split_lstrip_In (seg path : string) :
  In seg (Str.split os_sep path) -> seg <> "" ->
  In seg (Str.split os_sep (Str.lstrip os_sep path)).
Proof.
  intros Hin Hne. induction path as [|c path IH]; [exact Hin |].
  cbn [Str.lstrip]. destruct (Ascii.eqb c os_sep) eqn:Ec; [| exact Hin].
  cbn [Str.split] in Hin. rewrite Ec in Hin.
  destruct Hin as [E | Hin]; [now elim Hne | now apply IH].
Qed.

(** A piece of the path that is neither empty nor ["."] is one of its
    components. *)
Lemma raw_segment_part (seg path : string) :
  In seg (Str.split os_sep path) -> seg <> "" -> seg <> "." ->
  In seg (PurePath.parts path).
Proof.
  intros Hin Hne Hdot. unfold PurePath.parts, PurePath.parse.
  assert (Hrel : In seg (Str.split os_sep (snd (PurePath.splitroot path)))).
  { unfold PurePath.splitroot.
    destruct (_ =? 0)%nat; [exact Hin |].
    destruct (_ =? 2)%nat; now apply split_lstrip_In. }
  destruct (PurePath.splitroot path) as [root rel]. simpl in Hrel.
  assert (Htail : In seg (filter PurePath.keep (Str.split os_sep rel))).
  { apply filter_In. split; [exact Hrel |]. now apply keep_spec. }
  destruct (root =? "")%string; [exact Htail | now right].
Qed.

(** Whatever stands between two separators and starts with a dot makes the
    selector reject the path, except ["."] itself, which is no component of
    a path. *)
Lemma hidden_raw_segment_rejected (path seg : string) (inc ign : list string) :
  In seg (Str.split os_sep path) -> hidden seg -> seg <> "." ->
  should_include_file path inc ign = false.
Proof.
  intros Hin Hhid Hdot.
  assert (Hne : seg <> "") by (destruct Hhid as [r ->]; discriminate).
  destruct (should_include_file path inc ign) eqn:E; [| reflexivity].
  apply should_include_file_checks in E. destruct E as [Hh _].
  elim (Hh seg (raw_segment_part seg path Hin Hne Hdot) Hhid).
Qed.

End RawSegments.

(** * Further properties of the code *)

(** ** The selector *)

(** X1: [should_include_file] accepts a path exactly when it passes the
    hidden, venv and tilde checks, its normal form matches no ignore
    pattern, and the include list is empty or one of its patterns matches. *)
Theorem should_include_file_true_iff (path : string)
    (include_patterns ignore_patterns : list string) :
  should_include_file path include_patterns ignore_patterns = true <->
  passes_path_checks path /\
  (forall pattern, In pattern ignore_patterns ->
                   Fnmatch.fnmatch (normalize path) pattern = false) /\
  (include_patterns = [] \/
   exists pattern, In pattern include_patterns /\
                   Fnmatch.fnmatch (normalize path) pattern = true).
Proof.
  rewrite should_include_file_eq, !andb_true_iff, negb_true_iff.
  rewrite passes_path_checks_iff, existsb_false_iff.
  assert (H : match include_patterns with
              | [] => true
              | _ => existsb (Fnmatch.fnmatch (normalize path)) include_patterns
              end = true <->
              (include_patterns = [] \/
               exists pattern, In pattern include_patterns /\
                               Fnmatch.fnmatch (normalize path) pattern = true)).
  { destruct include_patterns as [|p l].
    - split; [now left | reflexivity].
    - rewrite existsb_exists. split; [now right | intros [E | H]; [discriminate | exact H]]. }
  rewrite H. tauto.
Qed.

(** X2: the selector decides a path and its normal form alike: doubled
    separators, ["."] components and a trailing separator change
    nothing. *)
Theorem should_include_file_normalized (path : string)
    (include_patterns ignore_patterns : list string) :
  should_include_file (normalize path) include_patterns ignore_patterns
  = should_include_file path include_patterns ignore_patterns.
Proof.
  rewrite !should_include_file_eq. unfold passes_path_checksb.
  now rewrite parts_normalize, normalize_idem.
Qed.

(** ** Patterns, continued *)

Section LiteralPatterns.

Lemma translate_literal (s q : string) (n : nat) (b : bool) :
  literal s = true ->
  Fnmatch.translate_loop (String.length s + n) b (s +++ q)
  = lits s ++ Fnmatch.translate_loop n
                (match s with EmptyString => b | _ => false end) q.
Proof.
  revert b. induction s as [|c s IH]; intros b Hlit; [reflexivity |].
  cbn [literal] in Hlit. apply andb_true_iff in Hlit. destruct Hlit as [Hc Hs].
  unfold metachar in Hc. rewrite negb_true_iff, !orb_false_iff in Hc.
  destruct Hc as [[H1 H2] H3].
  cbn [String.length String.append Nat.add Fnmatch.translate_loop lits app].
  rewrite H1, H2, H3, (IH false Hs). now destruct s.
Qed.

Lemma translate_of_literal (s : string) :
  literal s = true -> Fnmatch.translate s = lits s.
Proof.
  intros Hlit. unfold Fnmatch.translate.
  rewrite <- (append_nil_r s) at 2. rewrite <- (Nat.add_0_r (String.length s)).
  rewrite (translate_literal s "" 0 false Hlit). cbn [Fnmatch.translate_loop].
  apply app_nil_r.
Qed.

Lemma match_lits (s : string) (ts : list Fnmatch.tok) (name : string) :
  Fnmatch.match_toks (lits s ++ ts) name = true <->
  exists r, name = s +++ r /\ Fnmatch.match_toks ts r = true.
Proof.
  revert name. induction s as [|c s IH]; intros name; cbn [lits app].
  - split; [intros H; now exists name | intros [r [-> H]]; exact H].
  - rewrite match_lit. split.
    + intros [s' [-> H]]. apply IH in H. destruct H as [r [-> H]]. now exists r.
    + intros [r [-> H]]. exists (s +++ r). split; [reflexivity |].
      apply IH. now exists r.
Qed.

Lemma match_nil (name : string) : Fnmatch.match_toks [] name = true <-> name = "".
Proof. cbn [Fnmatch.match_toks]. apply String.eqb_eq. Qed.

(** A star before the tokens of a pattern: whether the loop has just seen
    a star or not makes no difference to what matches. *)
Lemma star_then_pattern (n : nat) (q name : string) :
  Fnmatch.match_toks (Fnmatch.TStar :: Fnmatch.translate_loop n true q) name = true <->
  Fnmatch.match_toks (Fnmatch.TStar :: Fnmatch.translate_loop n false q) name = true.
Proof.
  destruct n as [|n]; [reflexivity |]. destruct q as [|c q]; [reflexivity |].
  cbn [Fnmatch.translate_loop]. destruct (Ascii.eqb c "*"); [| reflexivity].
  rewrite !match_star. split.
  - intros [a [b [E H]]]. exists a, b. split; [exact E |].
    apply match_star. now exists "", b.
  - intros [a [b [E H]]]. apply match_star in H. destruct H as [a' [b' [-> H]]].
    exists (a +++ a'), b'. split; [| exact H]. now rewrite append_assoc.
Qed.

End LiteralPatterns.

(** X3: a star matches any run of characters, separators included: a name
    matches ["*q"] exactly when some tail of it matches [q]; and two stars
    are read as one, so ["**q"] matches the same names. *)
Theorem star_matches_any_run (name q : string) :
  (Fnmatch.fnmatch name ("*" +++ q) = true <->
   exists a b, name = a +++ b /\ Fnmatch.fnmatch b q = true) /\
  Fnmatch.fnmatch name ("**" +++ q) = Fnmatch.fnmatch name ("*" +++ q).
Proof.
  split; [| reflexivity].
  unfold Fnmatch.fnmatch.
  change (Fnmatch.translate ("*" +++ q))
    with (Fnmatch.TStar :: Fnmatch.translate_loop (String.length q) true q).
  rewrite star_then_pattern. apply match_star.
Qed.

(** X4: a pattern without [*], [?] and [[] matches its own text and
    nothing else. *)
Theorem literal_pattern_matches_itself (name pattern : string) :
  literal pattern = true ->
  (Fnmatch.fnmatch name pattern = true <-> name = pattern).
Proof.
  intros Hlit. unfold Fnmatch.fnmatch. rewrite (translate_of_literal _ Hlit).
  rewrite <- (app_nil_r (lits pattern)), match_lits. split.
  - intros [r [-> H]]. apply match_nil in H. subst. apply append_nil_r.
  - intros ->. exists "". split; [now rewrite append_nil_r | reflexivity].
Qed.

Lemma literal_pattern_matches_itself_witness :
  literal "concat_proj.py" = true /\
  Fnmatch.fnmatch "concat_proj.py" "concat_proj.py" = true.
Proof.
  split; [reflexivity |].
  exact (proj2 (literal_pattern_matches_itself "concat_proj.py" "concat_proj.py" eq_refl)
           eq_refl).
Defined.

(** X5: with the one include pattern ["**" + ext], for a literal [ext] such
    as [.py], the selector accepts exactly the paths whose normal form ends
    with [ext], among those that pass the path checks and match no ignore
    pattern. *)
Theorem suffix_include_pattern (path ext : string) (ignore_patterns : list string) :
  literal ext = true ->
  (should_include_file path ["**" +++ ext] ignore_patterns = true <->
   passes_path_checks path /\
   (forall pattern, In pattern ignore_patterns ->
                    Fnmatch.fnmatch (normalize path) pattern = false) /\
   exists a, normalize path = a +++ ext).
Proof.
  intros Hlit.
  assert (Hm : forall name, Fnmatch.fnmatch name ("**" +++ ext) = true <->
                            exists a, name = a +++ ext).
  { intros name. unfold Fnmatch.fnmatch.
    change (Fnmatch.translate ("**" +++ ext))
      with (Fnmatch.TStar :: Fnmatch.translate_loop (String.length ext) true ext).
    rewrite star_then_pattern.
    change (Fnmatch.translate_loop (String.length ext) false ext)
      with (Fnmatch.translate ext).
    rewrite (translate_of_literal _ Hlit), match_star. split.
    - intros [a [b [-> H]]]. rewrite <- (app_nil_r (lits ext)) in H.
      apply match_lits in H. destruct H as [r [-> H]]. apply match_nil in H. subst.
      exists a. now rewrite append_nil_r.
    - intros [a ->]. exists a, ext. split; [reflexivity |].
      rewrite <- (app_nil_r (lits ext)). apply match_lits. exists "".
      split; [now rewrite append_nil_r | reflexivity]. }
  rewrite should_include_file_eq, !andb_true_iff, negb_true_iff.
  rewrite passes_path_checks_iff, existsb_false_iff.
  cbn [existsb]. rewrite orb_false_r, Hm. tauto.
Qed.

Lemma suffix_include_pattern_witness :
  literal ".py" = true /\
  should_include_file "a/b.py" ["**.py"] get_default_ignore_patterns = true /\
  exists a, normalize "a/b.py" = a +++ ".py".
Proof.
  split; [reflexivity |]. split; [reflexivity |].
  exact (proj2 (proj2 (proj1 (suffix_include_pattern "a/b.py" ".py"
                                get_default_ignore_patterns eq_refl) eq_refl))).
Defined.

Section DefaultPatterns.

Lemma length_append (a b : string) :
  String.length (a +++ b) = String.length a + String.length b.
Proof. induction a as [|c a IH]; simpl; [reflexivity | now rewrite IH]. Qed.

(** Everything below a directory [d] matches the pattern [d/*]. *)
Lemma fnmatch_below_directory (d b : string) :
  literal d = true ->
  Fnmatch.fnmatch (d +++ "/" +++ b) (d +++ "/*") = true.
Proof.
  intros Hlit. unfold Fnmatch.fnmatch, Fnmatch.translate.
  rewrite length_append. change (String.length "/*") with 2.
  rewrite (translate_literal d "/*" 2 false Hlit).
  apply match_lits. exists ("/" +++ b). split; [reflexivity |].
  assert (E : forall flag, Fnmatch.translate_loop 2 flag "/*"
                           = [Fnmatch.TLit "/"; Fnmatch.TStar]) by (intros []; reflexivity).
  rewrite E. apply match_lit. exists b. split; [reflexivity |].
  apply match_star. exists b, "". split; [now rewrite append_nil_r | reflexivity].
Qed.

Lemma build_directories_spec (d : string) :
  In d build_directories ->
  literal d = true /\ In ("**/" +++ d +++ "/*") get_default_ignore_patterns.
Proof.
  unfold build_directories. simpl.
  intros H.
  repeat (destruct H as [<- | H];
          [split; [reflexivity |];
           unfold get_default_ignore_patterns;
           repeat (first [left; reflexivity | right]) |]).
  contradiction.
Qed.

End DefaultPatterns.

(** X6: with the default ignore patterns, and whatever patterns are added
    to them, a path that goes through a directory [__pycache__],
    [node_modules], [build], [dist], [target], [bin] or [obj] that is not
    its first component is rejected at any depth below that directory,
    whatever the include patterns. *)
Theorem build_directory_excluded (d path a b : string)
    (include_patterns more : list string) :
  In d build_directories ->
  normalize path = a +++ "/" +++ d +++ "/" +++ b ->
  should_include_file path include_patterns (get_default_ignore_patterns ++ more) = false.
Proof.
  intros Hd Hpath. destruct (build_directories_spec d Hd) as [Hlit Hin].
  rewrite should_include_file_eq.
  assert (E : existsb (Fnmatch.fnmatch (normalize path))
                (get_default_ignore_patterns ++ more) = true).
  { apply existsb_exists. exists ("**/" +++ d +++ "/*"). split.
    - apply in_or_app. now left.
    - apply fnmatch_any_depth. exists a, (d +++ "/" +++ b). split; [exact Hpath |].
      now apply fnmatch_below_directory. }
  rewrite E. cbn [negb]. now rewrite andb_false_r.
Qed.

Lemma build_directory_excluded_witness :
  In "node_modules" build_directories /\
  should_include_file "web/node_modules/left-pad/index.js" ["**.js"]
    (get_default_ignore_patterns ++ []) = false.
Proof.
  assert (H : In "node_modules" build_directories) by (right; now left).
  split; [exact H |].
  exact (build_directory_excluded "node_modules" "web/node_modules/left-pad/index.js"
           "web" "left-pad/index.js" ["**.js"] [] H eq_refl).
Defined.

(** X7: the default patterns ["**/*~"] and ["**/*.~*~"] match only paths
    whose normal form ends with a tilde, which the tilde check rejects
    before any pattern is tried. *)
Theorem tilde_patterns_shadowed (path pattern : string) :
  In pattern ["**/*~"; "**/*.~*~"] ->
  Fnmatch.fnmatch (normalize path) pattern = true ->
  ends_with_tilde path /\
  forall include_patterns ignore_patterns,
    should_include_file path include_patterns ignore_patterns = false.
Proof.
  intros Hin Hm.
  assert (Htilde : ends_with_tilde path).
  { unfold ends_with_tilde. unfold Fnmatch.fnmatch in Hm.
    destruct Hin as [<- | [<- | []]].
    - change (Fnmatch.translate "**/*~")
        with [Fnmatch.TStar; Fnmatch.TLit "/"; Fnmatch.TStar; Fnmatch.TLit "~"] in Hm.
      apply match_star in Hm. destruct Hm as [a [b [-> Hm]]].
      apply match_lit in Hm. destruct Hm as [b1 [-> Hm]].
      apply match_star in Hm. destruct Hm as [a2 [b2 [-> Hm]]].
      apply match_lit in Hm. destruct Hm as [b3 [-> Hm]].
      apply match_nil in Hm. subst.
      exists (a +++ "/" +++ a2). now rewrite !append_assoc.
    - change (Fnmatch.translate "**/*.~*~")
        with [Fnmatch.TStar; Fnmatch.TLit "/"; Fnmatch.TStar; Fnmatch.TLit ".";
              Fnmatch.TLit "~"; Fnmatch.TStar; Fnmatch.TLit "~"] in Hm.
      apply match_star in Hm. destruct Hm as [a [b [-> Hm]]].
      apply match_lit in Hm. destruct Hm as [b1 [-> Hm]].
      apply match_star in Hm. destruct Hm as [a2 [b2 [-> Hm]]].
      apply match_lit in Hm. destruct Hm as [b3 [-> Hm]].
      apply match_lit in Hm. destruct Hm as [b4 [-> Hm]].
      apply match_star in Hm. destruct Hm as [a5 [b5 [-> Hm]]].
      apply match_lit in Hm. destruct Hm as [b6 [-> Hm]].
      apply match_nil in Hm. subst.
      exists (a +++ "/" +++ a2 +++ ".~" +++ a5). now rewrite !append_assoc. }
  split; [exact Htilde |].
  intros inc ign. destruct (should_include_file path inc ign) eqn:E; [| reflexivity].
  apply should_include_file_checks in E. destruct E as [_ [_ Ht]]. now elim Ht.
Qed.

Lemma tilde_patterns_shadowed_witness :
  Fnmatch.fnmatch (normalize "notes/todo.txt~") "**/*~" = true /\
  ends_with_tilde "notes/todo.txt~".
Proof.
  split; [reflexivity |].
  exact (proj1 (tilde_patterns_shadowed "notes/todo.txt~" "**/*~"
                  (or_introl eq_refl) eq_refl)).
Defined.

(** ** The included files, continued *)

Section Collected.

Lemma collect_files_iff (fs : filesystem) (root_dir : string)
    (inc ign : list string) (rel_path full_path : string) :
  In (rel_path, full_path) (collect_files fs root_dir inc ign) <->
  exists dir dirs files file,
    In (dir, dirs, files) (walk fs root_dir) /\ In file files /\
    full_path = OsPath.join dir file /\
    rel_path = get_relative_path fs full_path root_dir /\
    should_include_file rel_path inc ign = true.
Proof.
  unfold collect_files. rewrite in_flat_map. split.
  - intros [[[dir dirs] files] [Hitem Hin]].
    rewrite in_flat_map in Hin. destruct Hin as [file [Hfile Hin]].
    destruct (should_include_file _ inc ign) eqn:E; [| contradiction].
    destruct Hin as [Heq | []]. inversion Heq; subst.
    exists dir, dirs, files, file. auto.
  - intros [dir [dirs [files [file [Hitem [Hfile [-> [-> Hacc]]]]]]]].
    exists (dir, dirs, files). split; [exact Hitem |].
    rewrite in_flat_map. exists file. split; [exact Hfile |].
    rewrite Hacc. now left.
Qed.

End Collected.

(** X9: the sorted list of included files holds exactly the accepted files
    of the walk, each as often as the walk lists it: sorting neither drops
    nor repeats a file.  A pair is in the list exactly when its full path
    joins a listed directory and one of its files, its relative path is
    that of the full path from the root, and the selector accepts it. *)
Theorem included_files_exactly (fs : filesystem) (root_dir : string)
    (include_patterns ignore_patterns : option (list string)) :
  let inc := match include_patterns with Some l => l | None => [] end in
  let ign := match ignore_patterns with
             | Some l => l
             | None => get_default_ignore_patterns
             end in
  let top := OsPath.abspath (cwd fs) root_dir in
  Permutation (included_files fs root_dir include_patterns ignore_patterns)
    (collect_files fs top inc ign) /\
  forall rel_path full_path,
    In (rel_path, full_path)
      (included_files fs root_dir include_patterns ignore_patterns) <->
    exists dir dirs files file,
      In (dir, dirs, files) (walk fs top) /\ In file files /\
      full_path = OsPath.join dir file /\
      rel_path = get_relative_path fs full_path top /\
      should_include_file rel_path inc ign = true.
Proof.
  cbv zeta. split.
  - apply list_sort_perm.
  - intros rel_path full_path. unfold included_files.
    rewrite list_sort_In. apply collect_files_iff.
Qed.

(** ** Writing the contents *)

Section Contents.

Lemma write_file_text (fs : filesystem) (rel_path full_path bytes out : string) :
  read_bytes fs full_path = Some bytes ->
  utf8_valid bytes = true ->
  write_file fs rel_path full_path out = (Ok tt, out +++ text_block rel_path bytes).
Proof.
  intros Hread Hok.
  unfold write_file, try_except, bind, open_read, read_text, write, raise, ret.
  rewrite Hread, Hok. cbv beta iota.
  unfold text_block. now rewrite !append_assoc.
Qed.

Lemma write_file_binary (fs : filesystem) (rel_path full_path bytes out : string) :
  read_bytes fs full_path = Some bytes ->
  utf8_valid bytes = false ->
  write_file fs rel_path full_path out = (Ok tt, out +++ undecodable_text rel_path).
Proof.
  intros Hread Hbad.
  unfold write_file, try_except, bind, open_read, read_text, write, raise, ret.
  rewrite Hread, Hbad. cbv beta iota delta [is_decode_error].
  unfold undecodable_text. now rewrite !append_assoc.
Qed.

Lemma write_file_missing (fs : filesystem) (rel_path full_path out : string) :
  read_bytes fs full_path = None ->
  write_file fs rel_path full_path out = (Raise OSError, out).
Proof.
  intros Hread.
  unfold write_file, try_except, bind, open_read, raise.
  now rewrite Hread.
Qed.

(** A file that can be opened adds its text and the run goes on. *)
Lemma write_file_opened (fs : filesystem) (f : string * string) (out : string) :
  read_bytes fs (snd f) <> None ->
  write_file fs (fst f) (snd f) out = (Ok tt, out +++ file_text fs f).
Proof.
  intros Hread. unfold file_text.
  destruct (read_bytes fs (snd f)) as [bytes|] eqn:E; [| contradiction].
  destruct (utf8_valid bytes) eqn:V.
  - now apply (write_file_text fs _ _ bytes).
  - now apply (write_file_binary fs _ _ bytes).
Qed.

Lemma write_contents_opened (fs : filesystem) (files : list (string * string))
    (out : string) :
  (forall f, In f files -> read_bytes fs (snd f) <> None) ->
  write_contents fs files out = (Ok tt, out +++ contents_text fs files).
Proof.
  unfold write_contents. revert out.
  induction files as [|f files IH]; intros out Hall.
  - simpl. unfold ret. now rewrite append_nil_r.
  - cbn [for_each contents_text fold_right]. unfold bind.
    rewrite (write_file_opened fs f out (Hall f (or_introl eq_refl))).
    rewrite IH by (intros g Hg; apply Hall; now right).
    fold (contents_text fs files). now rewrite append_assoc.
Qed.

Lemma write_contents_app (fs : filesystem) (l1 l2 : list (string * string))
    (out : string) :
  write_contents fs (l1 ++ l2) out =
  match write_contents fs l1 out with
  | (Ok _, out') => write_contents fs l2 out'
  | (Raise e, out') => (Raise e, out')
  end.
Proof.
  unfold write_contents. revert out.
  induction l1 as [|f l1 IH]; intros out; [reflexivity |].
  cbn [app for_each]. unfold bind.
  destruct (write_file fs (fst f) (snd f) out) as [[[]|e] out']; [apply IH | reflexivity].
Qed.


End Contents.

(** X14: a file whose bytes are valid UTF-8 is written as a header with its
    relative path, a line of 80 [=], its text with the line ends read as
    ["\n"], a line end and a line of 80 [-]; the run goes on. *)
Theorem decodable_file_output (fs : filesystem) (rel_path full_path bytes out : string) :
  read_bytes fs full_path = Some bytes ->
  utf8_valid bytes = true ->
  write_file fs rel_path full_path out
  = (Ok tt,
     out +++ nl +++ "# File: " +++ rel_path +++ nl
     +++ Str.repeat "=" 80 +++ nl
     +++ universal_newlines bytes
     +++ nl +++ Str.repeat "-" 80 +++ nl).
Proof.
  intros Hread Hok. rewrite (write_file_text fs _ _ _ _ Hread Hok).
  reflexivity.
Qed.

Lemma decodable_file_output_witness :
  read_bytes sample_fs "/home/u/proj/b/x/f2.txt" = Some "two" /\
  snd (write_file sample_fs "b/x/f2.txt" "/home/u/proj/b/x/f2.txt" "")
  = nl +++ "# File: b/x/f2.txt" +++ nl +++ Str.repeat "=" 80 +++ nl
    +++ "two" +++ nl +++ Str.repeat "-" 80 +++ nl.
Proof.
  split; [reflexivity |].
  rewrite (decodable_file_output sample_fs "b/x/f2.txt" "/home/u/proj/b/x/f2.txt"
             "two" "" eq_refl eq_refl).
  reflexivity.
Defined.

(** X17: the contents are written file by file.  If every file can be
    opened, all of them are written and the loop ends normally; a file
    that cannot be opened raises [OSError], the text of the files before it
    stays in the output, and nothing of the files after it is written. *)
Theorem write_contents_outcome (fs : filesystem) (before : list (string * string))
    (out : string) :
  (forall f, In f before -> read_bytes fs (snd f) <> None) ->
  write_contents fs before out = (Ok tt, out +++ contents_text fs before) /\
  forall f after,
    read_bytes fs (snd f) = None ->
    write_contents fs (before ++ f :: after) out
    = (Raise OSError, out +++ contents_text fs before).
Proof.
  intros Hall. pose proof (write_contents_opened fs before out Hall) as H.
  split; [exact H |].
  intros f after Hmissing. rewrite write_contents_app, H.
  unfold write_contents. cbn [for_each]. unfold bind.
  now rewrite (write_file_missing fs _ _ _ Hmissing).
Qed.

Lemma write_contents_outcome_witness :
  write_contents broken_fs
    ([("a.txt", "/w/a.txt")] ++ ("gone.txt", "/w/gone.txt") :: [("z.txt", "/w/z.txt")]) ""
  = (Raise OSError, "" +++ contents_text broken_fs [("a.txt", "/w/a.txt")]).
Proof.
  apply (write_contents_outcome broken_fs [("a.txt", "/w/a.txt")] "").
  - intros f [<- | []]. discriminate.
  - reflexivity.
Defined.

(** ** Writing the structure *)

Section Structure.

(** The directories of a path never raise: they only write. *)
Lemma structure_dirs_ok (dirs : list string) (i : nat) (memo : list string) (out : string) :
  exists memo' text, structure_dirs i dirs memo out = (Ok memo', out +++ text).
Proof.
  revert i memo out. induction dirs as [|part dirs IH]; intros i memo out.
  - exists memo, "". simpl. unfold ret. now rewrite append_nil_r.
  - cbn [structure_dirs]. unfold bind, write.
    destruct (List.length memo <=? i)%nat.
    + destruct (IH (S i) (memo ++ [part])
                  (out +++ Str.repeat "    " i +++ branch +++ part +++ "/" +++ nl))
        as [memo' [text E]].
      rewrite E. eexists memo', _. now rewrite append_assoc.
    + destruct (negb (nth i memo "" =? part)%string).
      * destruct (IH (S i) (list_set i part memo)
                    (out +++ Str.repeat "    " i +++ branch +++ part +++ "/" +++ nl))
          as [memo' [text E]].
        rewrite E. eexists memo', _. now rewrite append_assoc.
      * apply IH.
Qed.

Lemma structure_loop_result (files : list (string * string)) (memo : list string)
    (out : string) :
  (fst (structure_loop files memo out) = Ok tt /\
   forall f, In f files -> PurePath.parts (fst f) <> []) \/
  (fst (structure_loop files memo out) = Raise IndexError /\
   exists f, In f files /\ PurePath.parts (fst f) = []).
Proof.
  revert memo out. induction files as [|[rel full] files IH]; intros memo out.
  - left. split; [reflexivity | intros f []].
  - cbn [structure_loop]. unfold bind.
    destruct (structure_dirs_ok (removelast (PurePath.parts rel)) 0 memo out)
      as [memo' [text E]].
    rewrite E. destruct (PurePath.parts rel) as [|p ps] eqn:Hparts.
    + right. split; [reflexivity |]. exists (rel, full). split; [now left | exact Hparts].
    + unfold write.
      destruct (IH memo' ((out +++ text) +++
                          Str.repeat "    " (List.length (p :: ps) - 1) +++ branch
                          +++ last (p :: ps) "" +++ nl)) as [[Hok Hall] | [Hraise Hex]].
      * left. split; [exact Hok |].
        intros f [<- | Hf]; [simpl; rewrite Hparts; discriminate | now apply Hall].
      * right. split; [exact Hraise |].
        destruct Hex as [f [Hf Hp]]. exists f. split; [now right | exact Hp].
Qed.

(** Directories that are new at their depth: one line each, deeper and
    deeper, and all of them remembered. *)
Lemma structure_dirs_new (dirs : list string) (i : nat) (memo : list string) (out : string) :
  List.length memo = i ->
  structure_dirs i dirs memo out = (Ok (memo ++ dirs), out +++ dir_lines i dirs).
Proof.
  revert i memo out. induction dirs as [|part dirs IH]; intros i memo out Hlen.
  - simpl. unfold ret. now rewrite app_nil_r, append_nil_r.
  - cbn [structure_dirs dir_lines]. unfold bind, write.
    assert (E : (List.length memo <=? i)%nat = true) by (apply Nat.leb_le; lia).
    rewrite E, (IH (S i) (memo ++ [part])); [| rewrite length_app; simpl; lia].
    rewrite <- app_assoc. cbn [app]. now rewrite !append_assoc.
Qed.

(** Directories that are the remembered ones: no line, nothing changes. *)
Lemma structure_dirs_open (dirs : list string) (i : nat) (seen deeper : list string)
    (out : string) :
  List.length seen = i ->
  structure_dirs i dirs (seen ++ dirs ++ deeper) out = (Ok (seen ++ dirs ++ deeper), out).
Proof.
  revert i seen out. induction dirs as [|part dirs IH]; intros i seen out Hlen.
  - reflexivity.
  - cbn [structure_dirs].
    assert (E : (List.length (seen ++ (part :: dirs) ++ deeper) <=? i)%nat = false).
    { apply Nat.leb_gt. rewrite length_app. simpl. lia. }
    rewrite E.
    assert (N : nth i (seen ++ (part :: dirs) ++ deeper) "" = part).
    { rewrite app_nth2 by lia. now replace (i - List.length seen) with 0 by lia. }
    rewrite N, String.eqb_refl. cbn [negb].
    specialize (IH (S i) (seen ++ [part]) out).
    rewrite <- !app_assoc in IH. cbn [app] in IH.
    apply IH. rewrite length_app. simpl. lia.
Qed.

End Structure.

(** X13: the structure loop raises [IndexError] exactly when one of the
    relative paths has no component, as ["."] has none; otherwise it ends
    normally. *)
Theorem structure_loop_index_error (files : list (string * string))
    (memo : list string) (out : string) :
  (fst (structure_loop files memo out) = Raise IndexError <->
   exists f, In f files /\ PurePath.parts (fst f) = []) /\
  (fst (structure_loop files memo out) = Ok tt <->
   forall f, In f files -> PurePath.parts (fst f) <> []).
Proof.
  destruct (structure_loop_result files memo out) as [[Hok Hall] | [Hraise Hex]].
  - split; split; intros H.
    + congruence.
    + destruct H as [f [Hf Hp]]. now elim (Hall f Hf).
    + exact Hall.
    + exact Hok.
  - split; split; intros H.
    + exact Hex.
    + exact Hraise.
    + congruence.
    + destruct Hex as [f [Hf Hp]]. now elim (H f Hf).
Qed.

(** X12: the lines of one path with directories [dirs] and name [file].
    After an empty memo every directory gets a line, indented by its
    depth, before the line of the file; when the memo already names
    [dirs], only the line of the file is written. *)
Theorem structure_of_one_path (rel_path full_path file : string)
    (dirs deeper : list string) (out : string) :
  PurePath.parts rel_path = dirs ++ [file] ->
  structure_loop [(rel_path, full_path)] [] out
  = (Ok tt, out +++ dir_lines 0 dirs +++ file_line (List.length dirs) file) /\
  structure_loop [(rel_path, full_path)] (dirs ++ deeper) out
  = (Ok tt, out +++ file_line (List.length dirs) file).
Proof.
  intros Hparts. cbn [structure_loop]. rewrite Hparts.
  rewrite removelast_last, last_last, length_app. cbn [List.length].
  replace (List.length dirs + 1 - 1) with (List.length dirs) by lia.
  unfold bind. split.
  - rewrite (structure_dirs_new dirs 0 [] out eq_refl).
    destruct (dirs ++ [file]) eqn:E; [now destruct dirs |].
    unfold write, ret, file_line. now rewrite append_assoc.
  - pose proof (structure_dirs_open dirs 0 [] deeper out eq_refl) as Hopen.
    cbn [app] in Hopen. rewrite Hopen.
    destruct (dirs ++ [file]) eqn:E; [now destruct dirs |].
    reflexivity.
Qed.

Lemma structure_of_one_path_witness :
  PurePath.parts "a/x/f1.txt" = ["a"; "x"] ++ ["f1.txt"] /\
  structure_loop [("a/x/f1.txt", "/p/a/x/f1.txt")] [] ""
  = (Ok tt, "" +++ dir_lines 0 ["a"; "x"] +++ file_line 2 "f1.txt").
Proof.
  split; [reflexivity |].
  exact (proj1 (structure_of_one_path "a/x/f1.txt" "/p/a/x/f1.txt" "f1.txt"
                  ["a"; "x"] [] "" eq_refl)).
Defined.

(** ** How a run can fail *)

Section Failures.



End Failures.



(** ** Reading text *)

Section Text.


Lemma all_ascii_valid (bytes : string) : all_ascii bytes = true -> utf8_valid bytes = true.
Proof.
  induction bytes as [|c s IH]; [reflexivity |].
  cbn [all_ascii utf8_valid]. rewrite andb_true_iff. intros [Hc Hs].
  assert (E : byte_in 0 127 c = true).
  { unfold byte_in. apply Nat.ltb_lt in Hc. apply andb_true_iff.
    split; apply Nat.leb_le; lia. }
  rewrite E. now apply IH.
Qed.

End Text.


(** X15: a file of bytes below 128 is never taken for a binary file: its
    text is written between the header and the line of dashes. *)
Theorem ascii_file_written_as_text (fs : filesystem)
    (rel_path full_path bytes out : string) :
  read_bytes fs full_path = Some bytes ->
  all_ascii bytes = true ->
  write_file fs rel_path full_path out = (Ok tt, out +++ text_block rel_path bytes).
Proof.
  intros Hread Hascii. apply write_file_text; [exact Hread |].
  now apply all_ascii_valid.
Qed.

Lemma ascii_file_written_as_text_witness :
  read_bytes sample_fs "/home/u/proj/README" = Some ("demo" +++ nl) /\
  write_file sample_fs "README" "/home/u/proj/README" ""
  = (Ok tt, "" +++ text_block "README" ("demo" +++ nl)).
Proof.
  split; [reflexivity |].
  exact (ascii_file_written_as_text sample_fs "README" "/home/u/proj/README"
           ("demo" +++ nl) "" eq_refl eq_refl).
Defined.

(** ** Extensions of file names *)

Section Splitext.

Lemma count_append (c : ascii) (a b : string) :
  Str.count c (a +++ b) = Str.count c a + Str.count c b.
Proof.
  induction a as [|x a IH]; [reflexivity |].
  cbn [String.append Str.count]. rewrite IH. lia.
Qed.

Lemma rfind_absent (c : ascii) (s : string) (i : Z) :
  Str.count c s = 0 -> OsPath.rfind_from c s i = (-1)%Z.
Proof.
  revert i. induction s as [|x s IH]; intros i; [reflexivity |].
  cbn [Str.count OsPath.rfind_from]. destruct (Ascii.eqb x c); [discriminate |].
  intros H. now rewrite (IH _ H).
Qed.

(** The last occurrence is found. *)
Lemma rfind_last (c : ascii) (a b : string) (i : Z) :
  (0 <= i)%Z -> Str.count c b = 0 ->
  OsPath.rfind_from c (a +++ String c b) i = (i + Z.of_nat (String.length a))%Z.
Proof.
  intros Hi Hb. revert i Hi. induction a as [|x a IH]; intros i Hi.
  - cbn [String.append OsPath.rfind_from String.length].
    rewrite (rfind_absent c b _ Hb), Ascii.eqb_refl. simpl. lia.
  - cbn [String.append OsPath.rfind_from String.length].
    rewrite IH by lia.
    destruct (Z.leb_spec 0 (i + 1 + Z.of_nat (String.length a))); lia.
Qed.

Lemma substring_all (s : string) : String.substring 0 (String.length s) s = s.
Proof. induction s as [|c s IH]; [reflexivity | simpl; now rewrite IH]. Qed.

Lemma substring_prefix (a b : string) :
  String.substring 0 (String.length a) (a +++ b) = a.
Proof.
  induction a as [|c a IH]; simpl; [now destruct b | now rewrite IH].
Qed.

Lemma substring_suffix (a b : string) :
  String.substring (String.length a) (String.length b) (a +++ b) = b.
Proof.
  induction a as [|c a IH]; [apply substring_all | exact IH].
Qed.

Lemma all_dots_repeat (k : nat) : OsPath.all_dots (Str.repeat "." k) = true.
Proof. induction k as [|k IH]; [reflexivity | exact IH]. Qed.

Lemma length_repeat_dot (k : nat) : String.length (Str.repeat "." k) = k.
Proof. induction k as [|k IH]; [reflexivity | simpl; now rewrite IH]. Qed.

End Splitext.

(** X20: the extension of a file name [stem.ext], where [ext] holds no dot
    and [stem] is not made of dots only, is [.ext], and the rest is
    [stem]. *)
Theorem splitext_of_name (stem ext : string) :
  Str.count "/" stem = 0 -> Str.count "/" ext = 0 ->
  Str.count "." ext = 0 -> OsPath.all_dots stem = false ->
  OsPath.splitext (stem +++ "." +++ ext) = (stem, "." +++ ext).
Proof.
  intros Hs1 Hs2 Hdot Hstem. unfold OsPath.splitext, OsPath.rfind.
  rewrite (rfind_absent "/" (stem +++ "." +++ ext) 0)
    by (rewrite !count_append; simpl; lia).
  change (stem +++ "." +++ ext) with (stem +++ String "." ext).
  rewrite (rfind_last "." stem ext 0) by (lia || assumption).
  unfold OsPath.slice.
  replace (Z.to_nat (-1 + 1)) with 0 by lia.
  replace (Z.to_nat (0 + Z.of_nat (String.length stem) - (-1 + 1)))
    with (String.length stem) by lia.
  replace (Z.to_nat (0 + Z.of_nat (String.length stem) - 0))
    with (String.length stem) by lia.
  replace (Z.to_nat (0 + Z.of_nat (String.length stem)))
    with (String.length stem) by lia.
  replace (Z.to_nat (Z.of_nat (String.length (stem +++ String "." ext))
                     - (0 + Z.of_nat (String.length stem))))
    with (String.length (String "." ext)) by (rewrite length_append; lia).
  change (Z.to_nat 0) with 0.
  rewrite !substring_prefix, substring_suffix, Hstem.
  destruct (Z.ltb_spec (-1) (0 + Z.of_nat (String.length stem))); [reflexivity | lia].
Qed.

Lemma splitext_of_name_witness :
  OsPath.splitext ("archive.tar" +++ "." +++ "gz") = ("archive.tar", "." +++ "gz").
Proof.
  apply (splitext_of_name "archive.tar" "gz"); reflexivity.
Defined.

(** X21: a file name whose only dots are at its start, such as [README],
    [.gitignore] or [..], has no extension, so it adds nothing to the list
    of extensions. *)
Theorem splitext_leading_dots (k : nat) (rest : string) :
  Str.count "." rest = 0 -> Str.count "/" rest = 0 ->
  OsPath.splitext (Str.repeat "." k +++ rest) = (Str.repeat "." k +++ rest, "").
Proof.
  intros Hdot Hsep. unfold OsPath.splitext, OsPath.rfind.
  assert (Hk : forall j, Str.count "/" (Str.repeat "." j) = 0)
    by (induction j; [reflexivity | assumption]).
  rewrite (rfind_absent "/" (Str.repeat "." k +++ rest) 0)
    by (rewrite count_append, Hk; lia).
  destruct k as [|k].
  - cbn [Str.repeat String.append]. now rewrite (rfind_absent "." rest 0 Hdot).
  - replace (Str.repeat "." (S k) +++ rest) with (Str.repeat "." k +++ String "." rest).
    2:{ clear. induction k as [|k IH]; [reflexivity |].
        cbn [Str.repeat String.append] in *. now rewrite IH. }
    rewrite (rfind_last "." (Str.repeat "." k) rest 0) by (lia || assumption).
    unfold OsPath.slice. rewrite length_repeat_dot.
    replace (Z.to_nat (-1 + 1)) with 0 by lia.
    replace (Z.to_nat (0 + Z.of_nat k - (-1 + 1))) with k by lia.
    rewrite <- (length_repeat_dot k) at 2.
    rewrite substring_prefix, all_dots_repeat.
    now rewrite andb_false_r.
Qed.

Lemma splitext_leading_dots_witness :
  OsPath.splitext (Str.repeat "." 1 +++ "gitignore") = (".gitignore", "") /\
  OsPath.splitext (Str.repeat "." 0 +++ "README") = ("README", "").
Proof.
  split.
  - apply (splitext_leading_dots 1 "gitignore"); reflexivity.
  - apply (splitext_leading_dots 0 "README"); reflexivity.
Defined.

(** ** Relative paths *)

Section Relpath.

Lemma entry_name_iff (x : string) : entry_nameb x = true <-> entry_name x.
Proof.
  unfold entry_nameb, entry_name.
  rewrite !andb_true_iff, !negb_true_iff, !String.eqb_neq, Nat.eqb_eq. tauto.
Qed.

Lemma entry_name_head (x : string) : entry_name x -> Str.startswith x "/" = false.
Proof.
  intros [_ [_ [_ Hc]]]. apply not_true_is_false. intros E.
  apply startswith_iff in E. destruct E as [r ->]. discriminate.
Qed.

Lemma entry_name_keep (x : string) :
  entry_name x -> PurePath.keep x = true /\ Str.count os_sep x = 0.
Proof.
  intros [Hne [Hdot [_ Hc]]]. split; [| exact Hc]. now apply keep_spec.
Qed.

(** When a text ends with a character, so does its last part, unless that
    part is empty. *)
Lemma append_last_char (a b x : string) (c : ascii) :
  a +++ b = x +++ String c "" -> b <> "" -> exists b', b = b' +++ String c "".
Proof.
  revert x. induction a as [|h a IH]; intros x E Hb.
  - now exists x.
  - destruct x as [|h' x]; simpl in E.
    + inversion E as [[Hh Ha]]. destruct a; [| discriminate].
      simpl in Ha. now elim Hb.
    + inversion E as [[Hh Ha]]. now apply (IH x).
Qed.

Lemma join_snoc (l : list string) (x : string) :
  l <> [] -> Str.join "/" (l ++ [x]) = Str.join "/" l +++ "/" +++ x.
Proof.
  induction l as [|y l IH]; intros Hne; [contradiction |].
  destruct l as [|z l]; [reflexivity |].
  change (Str.join "/" ((y :: z :: l) ++ [x]))
    with (y +++ "/" +++ Str.join "/" ((z :: l) ++ [x])).
  rewrite IH by discriminate.
  change (Str.join "/" (y :: z :: l)) with (y +++ "/" +++ Str.join "/" (z :: l)).
  now rewrite !append_assoc.
Qed.

(** A join of names does not end with a separator. *)
Lemma join_no_tail_sep (l : list string) (pre : string) :
  l <> [] -> Forall entry_name l ->
  Str.endswith (pre +++ Str.join "/" l) "/" = false.
Proof.
  intros Hne Hall. apply not_true_is_false. intros E.
  apply endswith_iff in E. destruct E as [x E].
  revert pre x E. induction l as [|y l IH]; intros pre x E; [contradiction |].
  inversion Hall as [|? ? Hy Hl]; subst.
  destruct l as [|z l].
  - simpl in E. destruct Hy as [Hy0 [_ [_ Hc]]].
    destruct (append_last_char pre y x "/" E Hy0) as [y' ->].
    rewrite count_append in Hc. simpl in Hc. lia.
  - change (Str.join "/" (y :: z :: l)) with (y +++ "/" +++ Str.join "/" (z :: l)) in E.
    apply (IH ltac:(discriminate) Hl (pre +++ y +++ "/") x).
    now rewrite !append_assoc.
Qed.

Lemma join_nonempty (l : list string) :
  l <> [] -> Forall entry_name l -> Str.join "/" l <> "".
Proof.
  intros Hne Hall. destruct l as [|y l]; [contradiction |].
  inversion Hall as [|? ? [Hy _] _]; subst.
  destruct y; [contradiction |]. destruct l; discriminate.
Qed.

Lemma join_head (l : list string) :
  Forall entry_name l -> Str.startswith (Str.join "/" l) "/" = false.
Proof.
  intros Hall. apply not_true_is_false. intros E.
  apply startswith_iff in E. destruct E as [r E].
  apply (join_no_head l) with (r := r); [| exact E].
  intros x Hx. apply entry_name_keep. rewrite Forall_forall in Hall. now apply Hall.
Qed.

(** Joining a directory and a name. *)
Lemma join_abs (l : list string) (file : string) :
  Forall entry_name l -> entry_name file ->
  OsPath.join (abs_of l) file = abs_of (l ++ [file]).
Proof.
  intros Hl Hfile. unfold OsPath.join, abs_of.
  rewrite (entry_name_head file Hfile). cbn [String.append String.eqb orb].
  destruct l as [|y l].
  - reflexivity.
  - change (String "/" (Str.join "/" (y :: l))) with ("/" +++ Str.join "/" (y :: l)).
    rewrite (join_no_tail_sep (y :: l) "/") by (discriminate || assumption).
    rewrite (join_snoc (y :: l) file) by discriminate. reflexivity.
Qed.

Lemma split_abs_pieces (l : list string) :
  Forall entry_name l ->
  Str.split "/" (abs_of l) = "" :: match l with [] => [""] | _ => l end.
Proof.
  intros Hl. unfold abs_of.
  change (Str.split "/" ("/" +++ Str.join "/" l))
    with ("" :: Str.split os_sep (Str.join (String os_sep "") l)).
  f_equal. destruct l as [|y l]; [reflexivity |].
  apply split_join; [discriminate |].
  intros x Hx. rewrite Forall_forall in Hl. now destruct (Hl x Hx) as [_ [_ [_ Hc]]].
Qed.

Lemma split_abs (l : list string) :
  Forall entry_name l ->
  filter OsPath.nonempty (Str.split "/" (abs_of l)) = l.
Proof.
  intros Hl. rewrite (split_abs_pieces l Hl).
  destruct l as [|y l]; [reflexivity |].
  change (filter OsPath.nonempty ("" :: y :: l)) with (filter OsPath.nonempty (y :: l)).
  apply filter_all. intros x Hx. rewrite Forall_forall in Hl.
  destruct (Hl x Hx) as [Hne _]. unfold OsPath.nonempty.
  now apply negb_true_iff, String.eqb_neq.
Qed.

(** The components of a normal path are added one after the other. *)
Lemma normpath_fold (l acc : list string) (k : nat) :
  Forall entry_name l ->
  fold_left
    (fun new_comps comp =>
       if (comp =? "")%string || (comp =? ".")%string then new_comps
       else if negb (comp =? "..")%string
               || ((k =? 0)%nat && OsPath.is_nil new_comps)
               || (negb (OsPath.is_nil new_comps) && (last new_comps "" =? "..")%string)
            then new_comps ++ [comp]
            else removelast new_comps)
    l acc
  = acc ++ l.
Proof.
  intros Hl. revert acc. induction Hl as [|x l [H0 [H1 [H2 _]]] _ IH]; intros acc.
  - now rewrite app_nil_r.
  - cbn [fold_left].
    apply String.eqb_neq in H0, H1, H2. rewrite H0, H1, H2. cbn [orb negb].
    rewrite IH, <- app_assoc. reflexivity.
Qed.

Lemma normpath_abs (l : list string) :
  Forall entry_name l -> OsPath.normpath (abs_of l) = abs_of l.
Proof.
  intros Hl. unfold OsPath.normpath.
  assert (H1 : Str.startswith (abs_of l) "/" = true)
    by (apply startswith_iff; now exists (Str.join "/" l)).
  assert (H2 : Str.startswith (abs_of l) "//" = false).
  { apply not_true_is_false. intros E. apply startswith_iff in E.
    destruct E as [r E]. unfold abs_of in E. inversion E as [E'].
    pose proof (join_head l Hl) as H.
    assert (H' : Str.startswith (Str.join "/" l) "/" = true)
      by (apply startswith_iff; now exists r).
    congruence. }
  rewrite H1, H2. cbn [andb].
  rewrite (split_abs_pieces l Hl).
  cbn [fold_left String.eqb orb].
  assert (Hfold : fold_left
    (fun new_comps comp =>
       if (comp =? "")%string || (comp =? ".")%string then new_comps
       else if negb (comp =? "..")%string
               || ((1 =? 0)%nat && OsPath.is_nil new_comps)
               || (negb (OsPath.is_nil new_comps) && (last new_comps "" =? "..")%string)
            then new_comps ++ [comp]
            else removelast new_comps) match l with [] => [""] | _ => l end [] = l).
  { destruct l as [|y l]; [reflexivity |].
    now rewrite (normpath_fold (y :: l) [] 1 Hl). }
  rewrite Hfold. reflexivity.
Qed.

Lemma commonprefix_app (l r : list string) : OsPath.commonprefix l (l ++ r) = l.
Proof.
  induction l as [|x l IH]; [now destruct r |].
  cbn [app OsPath.commonprefix]. now rewrite String.eqb_refl, IH.
Qed.

Lemma join_all_names (l : list string) :
  l <> [] -> Forall entry_name l -> OsPath.join_all l = Str.join "/" l.
Proof.
  intros Hne Hl. destruct l as [|a p]; [contradiction |].
  unfold OsPath.join_all.
  assert (H : forall p pre, pre <> [] -> Forall entry_name pre -> Forall entry_name p ->
                fold_left OsPath.join p (Str.join "/" pre) = Str.join "/" (pre ++ p)).
  { clear. induction p as [|x p IH]; intros pre Hne Hpre Hp.
    - now rewrite app_nil_r.
    - inversion Hp as [|? ? Hx Hp']; subst. cbn [fold_left].
      assert (E : OsPath.join (Str.join "/" pre) x = Str.join "/" (pre ++ [x])).
      { unfold OsPath.join. rewrite (entry_name_head x Hx).
        pose proof (join_no_tail_sep pre "" Hne Hpre) as Hend. cbn [String.append] in Hend.
        rewrite Hend.
        assert (N : (Str.join "/" pre =? "")%string = false)
          by (apply String.eqb_neq; now apply join_nonempty).
        rewrite N. cbn [orb]. now rewrite join_snoc. }
      rewrite E, IH.
      + now rewrite <- app_assoc.
      + now destruct pre.
      + apply Forall_app. split; [exact Hpre | now constructor].
      + exact Hp'. }
  inversion Hl as [|? ? Ha Hp]; subst.
  exact (H p [a] ltac:(discriminate) (Forall_cons a Ha (Forall_nil _)) Hp).
Qed.

End Relpath.

(** X11: the relative path of a file found below the root.  For a root
    [/c1/.../cn] and a file [file] in its directory [s1/.../sm], joined as
    [os.walk] and [os.path.join] give them, [get_relative_path] is
    [s1/.../sm/file], whatever the current directory is. *)
Theorem relative_path_below_root (fs : filesystem) (comps subs : list string)
    (file : string) :
  Forall entry_name comps -> Forall entry_name subs -> entry_name file ->
  get_relative_path fs (OsPath.join (abs_of (comps ++ subs)) file) (abs_of comps)
  = Str.join "/" (subs ++ [file]).
Proof.
  intros Hc Hs Hf.
  assert (Hcs : Forall entry_name (comps ++ subs)) by (apply Forall_app; now split).
  assert (Hall : Forall entry_name ((comps ++ subs) ++ [file]))
    by (apply Forall_app; split; [exact Hcs | now constructor]).
  rewrite (join_abs _ _ Hcs Hf).
  unfold get_relative_path, OsPath.relpath, OsPath.abspath.
  assert (Habs : forall l, OsPath.isabs (abs_of l) = true)
    by (intros l; apply startswith_iff; now exists (Str.join "/" l)).
  rewrite !Habs.
  rewrite (normpath_abs _ Hc), (normpath_abs _ Hall).
  rewrite (split_abs _ Hc), (split_abs _ Hall).
  rewrite <- !app_assoc, commonprefix_app, Nat.sub_diag. cbn [List.repeat app].
  rewrite skipn_app, skipn_all, Nat.sub_diag. cbn [app skipn].
  assert (Hrest : Forall entry_name (subs ++ [file]))
    by (apply Forall_app; split; [exact Hs | now constructor]).
  destruct (subs ++ [file]) as [|x rest] eqn:E; [now destruct subs |].
  cbn [OsPath.is_nil]. apply join_all_names; [discriminate | exact Hrest].
Qed.

Lemma relative_path_below_root_witness :
  get_relative_path sample_fs
    (OsPath.join (abs_of (["home"; "u"; "proj"] ++ ["a"; "x"])) "f1.txt")
    (abs_of ["home"; "u"; "proj"])
  = "a/x/f1.txt".
Proof.
  apply (relative_path_below_root sample_fs ["home"; "u"; "proj"] ["a"; "x"] "f1.txt").
  - repeat constructor; apply entry_name_iff; reflexivity.
  - repeat constructor; apply entry_name_iff; reflexivity.
  - apply entry_name_iff; reflexivity.
Defined.

(** ** Whole runs *)

(** X10: patterns given with [--ignore] are added to the default ones and
    only remove files: what a run includes with the default patterns and
    more is included with the default patterns alone. *)
Theorem more_ignore_fewer_included (fs : filesystem) (root_dir : string)
    (include_patterns : option (list string)) (more : list string) (f : string * string) :
  In f (included_files fs root_dir include_patterns
          (Some (get_default_ignore_patterns ++ more))) ->
  In f (included_files fs root_dir include_patterns None).
Proof.
  unfold included_files. rewrite !list_sort_In. destruct f as [rel full].
  rewrite !collect_files_iff.
  intros [dir [dirs [files [file [Hitem [Hfile [Hfull [Hrel Hacc]]]]]]]].
  exists dir, dirs, files, file. repeat split; try assumption.
  rewrite should_include_file_eq in *. rewrite existsb_app, negb_orb in Hacc.
  rewrite !andb_true_iff in *. tauto.
Qed.

Lemma more_ignore_fewer_included_witness :
  In ("README", "/home/u/proj/README")
    (included_files sample_fs "proj" None (Some (get_default_ignore_patterns ++ ["**.txt"])))
  /\
  In ("README", "/home/u/proj/README") (included_files sample_fs "proj" None None).
Proof.
  assert (H : In ("README", "/home/u/proj/README")
                (included_files sample_fs "proj" None
                   (Some (get_default_ignore_patterns ++ ["**.txt"]))))
    by (vm_compute; now left).
  split; [exact H |].
  exact (more_ignore_fewer_included sample_fs "proj" None ["**.txt"] _ H).
Defined.



(** ** The default pattern for hidden names *)

Section HiddenPattern.

(** Where a separator can stand in a name followed by a separator. *)
Lemma sep_after_name (y rest a b : string) :
  Str.count os_sep y = 0 ->
  y +++ "/" +++ rest = a +++ "/" +++ b ->
  (a = y /\ b = rest) \/ exists a', a = y +++ "/" +++ a' /\ rest = a' +++ "/" +++ b.
Proof.
  revert a. induction y as [|c y IH]; intros a Hc E.
  - destruct a as [|c' a']; simpl in E.
    + left. inversion E. auto.
    + right. inversion E; subst. now exists a'.
  - cbn [Str.count] in Hc.
    destruct (Ascii.eqb_spec c os_sep) as [->|Hne]; [discriminate |].
    destruct a as [|c' a']; simpl in E.
    + inversion E; subst. now elim Hne.
    + inversion E; subst. destruct (IH a' Hc H1) as [[-> ->] | [a'' [-> ->]]].
      * now left.
      * right. now exists a''.
Qed.

(** What follows a separator of a join of names is the join of the last
    names. *)
Lemma join_after_sep (tail : list string) (a b : string) :
  (forall x, In x tail -> PurePath.keep x = true /\ Str.count os_sep x = 0) ->
  Str.join "/" tail = a +++ "/" +++ b ->
  exists h l2, In h tail /\ b = Str.join "/" (h :: l2).
Proof.
  revert a. induction tail as [|y tail IH]; intros a Hall E.
  - destruct a; discriminate.
  - destruct tail as [|z tail].
    + simpl in E. destruct (Hall y (or_introl eq_refl)) as [_ Hc].
      rewrite E, !count_append in Hc. simpl in Hc. lia.
    + change (Str.join "/" (y :: z :: tail))
        with (y +++ "/" +++ Str.join "/" (z :: tail)) in E.
      destruct (Hall y (or_introl eq_refl)) as [_ Hc].
      destruct (sep_after_name _ _ _ _ Hc E) as [[-> ->] | [a' [-> E']]].
      * exists z, tail. split; [right; now left | reflexivity].
      * destruct (IH a' (fun x Hx => Hall x (or_intror Hx)) E') as [h [l2 [Hin Hb]]].
        exists h, l2. split; [now right | exact Hb].
Qed.

Lemma join_first_char (h : string) (l : list string) (r : string) :
  h <> "" -> Str.join "/" (h :: l) = "." +++ r -> hidden h.
Proof.
  intros Hne E. destruct h as [|c h]; [contradiction |].
  destruct l; simpl in E; injection E as Hc _; subst c; now exists h.
Qed.

Lemma hidden_part_of_normal_form (path a r : string) :
  normalize path = a +++ "/" +++ "." +++ r ->
  exists part, In part (PurePath.parts path) /\ hidden part.
Proof.
  rewrite normalize_to_str. unfold PurePath.to_str, PurePath.parts.
  pose proof (parse_tail path) as Htail.
  assert (Hroot : is_root (fst (PurePath.parse path))).
  { unfold PurePath.parse. pose proof (splitroot_spec path) as [H _].
    destruct (PurePath.splitroot path); exact H. }
  destruct (PurePath.parse path) as [root tail]. simpl in Htail, Hroot.
  assert (Hkeep : forall h, In h tail -> h <> "").
  { intros h Hh. destruct (Htail h Hh) as [Hk _]. apply keep_spec in Hk. tauto. }
  assert (Hfound : forall a', Str.join "/" tail = a' +++ "/" +++ "." +++ r ->
                              exists part, In part tail /\ hidden part).
  { intros a' E. destruct (join_after_sep tail a' _ Htail E) as [h [l2 [Hin Hb]]].
    exists h. split; [exact Hin |]. symmetry in Hb.
    apply (join_first_char h l2 r (Hkeep h Hin) Hb). }
  assert (Hfirst : Str.join "/" tail = "." +++ r ->
                   exists part, In part tail /\ hidden part).
  { intros E. destruct tail as [|h l2]; [discriminate |].
    exists h. split; [now left |].
    apply (join_first_char h l2 r (Hkeep h (or_introl eq_refl)) E). }
  assert (Hlift : (exists part, In part tail /\ hidden part) ->
                  exists part,
                    In part (if (root =? "")%string then tail else root :: tail) /\
                    hidden part).
  { intros [part [Hin Hh]]. exists part. split; [| exact Hh].
    destruct (root =? "")%string; [exact Hin | now right]. }
  destruct ((root +++ Str.join "/" tail) =? "")%string eqn:Hs.
  - intros E. destruct a as [|c [|c' a]]; discriminate.
  - intros E. apply Hlift. destruct Hroot as [-> | [-> | ->]].
    + now apply (Hfound a).
    + destruct a as [|c a]; simpl in E; inversion E; subst.
      * now apply Hfirst.
      * now apply (Hfound a).
    + destruct a as [|c [|c' a]]; simpl in E; inversion E; subst.
      * now apply Hfirst.
      * now apply (Hfound a).
Qed.

End HiddenPattern.

(** X8: the default pattern ["**/.*"] matches only paths with a component
    that starts with a dot, which the check on hidden components rejects
    before any pattern is tried. *)
Theorem hidden_pattern_shadowed (path : string) :
  Fnmatch.fnmatch (normalize path) "**/.*" = true ->
  (exists part, In part (PurePath.parts path) /\ hidden part) /\
  forall include_patterns ignore_patterns,
    should_include_file path include_patterns ignore_patterns = false.
Proof.
  intros Hm.
  assert (Hpart : exists part, In part (PurePath.parts path) /\ hidden part).
  { apply (fnmatch_any_depth (normalize path) ".*") in Hm.
    destruct Hm as [a [b [E Hb]]]. unfold Fnmatch.fnmatch in Hb.
    change (Fnmatch.translate ".*") with [Fnmatch.TLit "."; Fnmatch.TStar] in Hb.
    apply match_lit in Hb. destruct Hb as [r [-> _]].
    now apply (hidden_part_of_normal_form path a r). }
  split; [exact Hpart |].
  intros inc ign. destruct Hpart as [part [Hin Hh]].
  destruct (should_include_file path inc ign) eqn:E; [| reflexivity].
  apply should_include_file_checks in E. destruct E as [Hhid _].
  now elim (Hhid part Hin).
Qed.

Lemma hidden_pattern_shadowed_witness :
  Fnmatch.fnmatch (normalize "src/.cache/x.py") "**/.*" = true /\
  should_include_file "src/.cache/x.py" ["**.py"] [] = false.
Proof.
  split; [reflexivity |].
  exact (proj2 (hidden_pattern_shadowed "src/.cache/x.py" eq_refl) ["**.py"] []).
Defined.

(** ** Instances *)

Lemma should_include_file_true_iff_witness :
  should_include_file "src/main.py" ["**.py"] get_default_ignore_patterns = true /\
  passes_path_checks "src/main.py".
Proof.
  split; [reflexivity |].
  exact (proj1 (proj1 (should_include_file_true_iff "src/main.py" ["**.py"]
                         get_default_ignore_patterns) eq_refl)).
Defined.

Lemma included_files_exactly_witness :
  In ("README", "/home/u/proj/README") (included_files sample_fs "proj" None None) /\
  should_include_file "README" [] get_default_ignore_patterns = true.
Proof.
  assert (H : In ("README", "/home/u/proj/README")
                (included_files sample_fs "proj" None None))
    by (vm_compute; now left).
  split; [exact H |].
  destruct (proj1 (proj2 (included_files_exactly sample_fs "proj" None None) _ _) H)
    as [dir [dirs [files [file [_ [_ [_ [_ Hacc]]]]]]]].
  exact Hacc.
Defined.

Lemma structure_loop_index_error_witness :
  PurePath.parts "." = [] /\
  fst (structure_loop [("a.txt", "/w/a.txt"); (".", "/w")] [] "") = Raise IndexError.
Proof.
  split; [reflexivity |].
  apply (proj1 (structure_loop_index_error [("a.txt", "/w/a.txt"); (".", "/w")] [] "")).
  exists (".", "/w"). split; [right; now left | reflexivity].
Defined.

